(** * Trial-balance ratio dashboard: normaliser and ratio engine

    A shallow embedding of [app.py]: the built-in demo trial balance
    ([load_demo_trial_balance]), the column normaliser
    ([normalise_tb_columns]) and the ratio engine ([calculate_ratios]).

    Modelling choices.
    - Amounts are exact rationals ([Q]); the source computes with binary
      floating point, whose rounding is outside this model.  Decimal
      literals denote themselves.
    - Nominal codes are integers ([Z]); the conversion [astype(int)] of
      the normaliser targets the 64-bit signed integer type and raises
      [OverflowError] above its largest value.
    - A raised Python exception is a [Raise] result; a returned value is
      [Ok].  Division is modelled as Python's [/], which raises
      [ZeroDivisionError] on a zero divisor, so that the guards of the
      engine carry a proof obligation.
    - Text is a byte string holding UTF-8; [characters] cuts it into its
      characters.  Lower-casing acts on the ASCII range.  The digit class
      [\d] and the conversion [int] read every Unicode decimal digit: the
      ten ASCII digits are written out, and the decimal value of a
      character outside the ASCII range comes from the Unicode database
      of the interpreter, which is a parameter. *)

From Stdlib Require Import QArith Qround Qabs ZArith String Ascii List Bool Lia.
From Stdlib Require Import Permutation Lqa DecimalPos.
From Stdlib Require Import DecimalString.
Import ListNotations.

Open Scope string_scope.
Open Scope list_scope.
Open Scope Q_scope.

(** ** Exceptions and results *)

Inductive exn : Type :=
| ValueError (msg : string)
| OverflowError
| ZeroDivisionError.

Inductive result (A : Type) : Type :=
| Ok (a : A)
| Raise (e : exn).

Arguments Ok {A} a.
Arguments Raise {A} e.

Definition bind {A B : Type} (m : result A) (k : A -> result B) : result B :=
  match m with
  | Ok a => k a
  | Raise e => Raise e
  end.

Notation "x <- m ;; k" := (bind m (fun x => k))
  (at level 61, m at next level, right associativity).

Fixpoint mapM {A B : Type} (f : A -> result B) (l : list A) : result (list B) :=
  match l with
  | [] => Ok []
  | a :: l' => b <- f a ;; bs <- mapM f l' ;; Ok (b :: bs)
  end.

(** ** Canonical records *)

Record AccountRecord : Type := mkAccount {
  code : Z;
  name : string;
  debit : Q;
  credit : Q;
  balance : Q
}.

(** A standardised trial balance: the rows of the data frame, in order. *)
Definition Frame : Type := list AccountRecord.

(** One row of a frame built from [(code, name, debit, credit)], with the
    [balance] column assigned as [df["debit"] - df["credit"]]. *)
Definition with_balance (t : Z * string * Q * Q) : AccountRecord :=
  let '(c, n, d, cr) := t in mkAccount c n d cr (d - cr).

(** ** Demo dataset: Stationery & Computer Mart UK *)

Definition demo_data : list (Z * string * Q * Q) := [
  (21%Z,   "Plant/Machinery Depreciation",            515.00,    0.00);
  (51%Z,   "Motor Vehicles Depreciation",             757.44,    0.00);
  (1100%Z, "Debtors Control Account",              89731.16,    0.00);
  (1103%Z, "Prepayments",                            1350.00,    0.00);
  (1200%Z, "Bank Current Account",                   3389.99,    0.00);
  (1210%Z, "Bank Deposit Account",                   2000.00,    0.00);
  (1220%Z, "Building Society Account",                505.03,    0.00);
  (1230%Z, "Petty Cash",                              833.48,    0.00);
  (1240%Z, "Company Credit Card",                       0.00, 10414.97);
  (2100%Z, "Creditors Control Account",                 0.00, 36572.97);
  (2109%Z, "Accruals",                                  0.00,    50.00);
  (2200%Z, "Sales Tax Control Account",                 0.00, 22152.44);
  (2201%Z, "Purchase Tax Control Account",              0.00, 11102.51);
  (2202%Z, "VAT Liability",                             0.00, 14800.35);
  (2210%Z, "P.A.Y.E.",                                  0.00,  2070.23);
  (2211%Z, "National Insurance",                        0.00,  1003.49);
  (2220%Z, "Net Wages",                                 0.00,     0.00);
  (2230%Z, "Pension Fund",                              0.00,    80.00);
  (2300%Z, "Loans",                                     0.00,   605.00);
  (2310%Z, "Hire Purchase",                             0.00,  1800.00);
  (4000%Z, "Sales North",                               0.00, 179507.53);
  (4001%Z, "Sales South",                               0.00,   1230.00);
  (4002%Z, "Sales Scotland",                            0.00,   8472.51);
  (4009%Z, "Discounts Allowed",                         50.00,     0.00);
  (4900%Z, "Miscellaneous Income",                      0.00,    60.03);
  (4905%Z, "Distribution and Carriage",                870.00,     0.00);
  (5000%Z, "Materials Purchased",                     45446.48,    0.00);
  (5001%Z, "Materials Imported",                      23733.00,    0.00);
  (5002%Z, "Miscellaneous Purchases",                 1158.53,     0.00);
  (5100%Z, "Carriage",                                   1.26,     0.00);
  (6200%Z, "Sales Promotions",                          50.00,     0.00);
  (6201%Z, "Advertising",                              465.00,     0.00);
  (6202%Z, "Gifts and Samples",                         15.00,     0.00);
  (6203%Z, "P.R. (Literature & Brochures)",           1050.00,     0.00);
  (7000%Z, "Gross Wages",                            24372.11,    0.00);
  (7006%Z, "Employers N.I.",                          2495.43,    0.00);
  (7009%Z, "Adjustments",                              170.00,    0.00);
  (7010%Z, "SSP Reclaimed",                              0.00,    30.00);
  (7011%Z, "SMP Reclaimed",                              0.00,    48.40);
  (7100%Z, "Rent",                                   15750.00,     0.00);
  (7200%Z, "Electricity",                               952.00,   0.00);
  (7300%Z, "Fuel and Oil",                               15.00,   0.00);
  (7301%Z, "Repairs and Servicing",                      88.18,   0.00);
  (7304%Z, "Miscellaneous Motor Expenses",               67.00,   0.00);
  (7350%Z, "Scale Charges",                              60.18,   0.00);
  (7400%Z, "Travelling",                                201.00,   0.00);
  (7401%Z, "Car Hire",                                  150.00,   0.00);
  (7402%Z, "Hotels",                                    720.00,   0.00);
  (7403%Z, "U.K. Entertainment",                          5.50,   0.00);
  (7500%Z, "Printing",                                   51.60,   0.00);
  (7501%Z, "Postage and Carriage",                        3.50,   0.00);
  (7502%Z, "Telephone",                                 128.72,   0.00);
  (7802%Z, "Laundry",                                    50.00,   0.00);
  (7901%Z, "Bank Charges",                                5.56,   0.00);
  (7903%Z, "Loan Interest Paid",                         83.25,   0.00);
  (8003%Z, "Vehicle Depreciation",                      757.44,   0.00);
  (8100%Z, "Bad Debt Write Off",                          0.01,   0.00);
  (9999%Z, "Mispostings Account",                       205.00,   0.00)
].

Definition load_demo_trial_balance : Frame := map with_balance demo_data.

(** ** Data-frame primitives used by the engine *)

(** [df[mask]]: the rows selected by a boolean mask, in order. *)
Definition loc (mask : AccountRecord -> bool) (df : Frame) : Frame :=
  filter mask df.

(** [series.isin(codes)], element-wise. *)
Definition isin (codes : list Z) (c : Z) : bool :=
  existsb (Z.eqb c) codes.

(** [df["balance"].sum()]; the sum of an empty column is [0]. *)
Definition balance_sum (df : Frame) : Q :=
  fold_left Qplus (map balance df) 0.

(** [df[df["code"].isin(codes)]["balance"].sum()] *)
Definition sum_isin (codes : list Z) (df : Frame) : Q :=
  balance_sum (loc (fun r => isin codes (code r)) df).

(** [df[df["code"] == c]["balance"].sum()]; this is also the body of the
    local function [bal]. *)
Definition bal (df : Frame) (c : Z) : Q :=
  balance_sum (loc (fun r => Z.eqb (code r) c) df).

(** Truth value of a number in a conditional: non-zero. *)
Definition truthy (x : Q) : bool := negb (Qeq_bool x 0).

(** [a / b] *)
Definition truediv (a b : Q) : result Q :=
  if Qeq_bool b 0 then Raise ZeroDivisionError else Ok (a / b).

(** ** The category map *)

Definition sales_codes : list Z := [4000; 4001; 4002]%Z.
Definition cogs_codes : list Z := [5000; 5001; 5002; 5100]%Z.
Definition expense_codes : list Z := [
  4905; 6200; 6201; 6202; 6203;
  7000; 7006; 7009;
  7100; 7200;
  7300; 7301; 7304;
  7350; 7400; 7401; 7402; 7403;
  7500; 7501; 7502;
  7802;
  7901;
  8003;
  8100
]%Z.
Definition current_asset_codes : list Z :=
  [1100; 1103; 1200; 1210; 1220; 1230]%Z.
Definition current_liability_codes : list Z :=
  [2100; 2109; 2200; 2201; 2202; 2210; 2211; 2220; 2230; 1240]%Z.

(** Every code the engine looks at: the union of the category sets and of
    the single codes compared with [==]. *)
Definition category_codes : list Z :=
  sales_codes ++ [4009%Z] ++ cogs_codes ++ expense_codes ++ [7010; 7011]%Z
  ++ [4900%Z] ++ [7903%Z] ++ current_asset_codes ++ current_liability_codes
  ++ [1103%Z] ++ [1100%Z] ++ [2100%Z].

(** ** The locals of [calculate_ratios], as functions of the frame *)

Section Locals.
Variable df : Frame.

(* --- Revenue & cost of sales --- *)
Definition sales : Q := - sum_isin sales_codes df.
Definition discounts : Q := bal df 4009.
Definition net_sales : Q := sales - discounts.
Definition cogs : Q := sum_isin cogs_codes df.
Definition gross_profit : Q := net_sales - cogs.
Definition gross_margin_pct : result (option Q) :=
  if truthy net_sales
  then (q <- truediv gross_profit net_sales ;; Ok (Some (q * 100)))
  else Ok None.

(* --- Operating expenses --- *)
Definition expenses : Q := sum_isin expense_codes df.
Definition ssp_smp_recovery : Q := - sum_isin [7010; 7011]%Z df.
Definition operating_expenses : Q := expenses - ssp_smp_recovery.
Definition misc_income : Q := - bal df 4900.
Definition operating_profit : Q :=
  gross_profit - operating_expenses + misc_income.
Definition operating_margin_pct : result (option Q) :=
  if truthy net_sales
  then (q <- truediv operating_profit net_sales ;; Ok (Some (q * 100)))
  else Ok None.

(* --- Finance cost & profit before tax --- *)
Definition finance_cost : Q := bal df 7903.
Definition profit_before_tax : Q := operating_profit - finance_cost.
Definition net_margin_pct : result (option Q) :=
  if truthy net_sales
  then (q <- truediv profit_before_tax net_sales ;; Ok (Some (q * 100)))
  else Ok None.

(* --- Working capital & liquidity --- *)
Definition current_assets : Q := sum_isin current_asset_codes df.
Definition current_liabilities : Q := - sum_isin current_liability_codes df.
Definition working_capital : Q := current_assets - current_liabilities.
Definition current_ratio : result (option Q) :=
  if truthy current_liabilities
  then (q <- truediv current_assets current_liabilities ;; Ok (Some q))
  else Ok None.
Definition quick_assets : Q := current_assets - bal df 1103.
Definition quick_ratio : result (option Q) :=
  if truthy current_liabilities
  then (q <- truediv quick_assets current_liabilities ;; Ok (Some q))
  else Ok None.

(* --- Efficiency ratios --- *)
Definition debtors : Q := bal df 1100.
Definition creditors : Q := - bal df 2100.
Definition receivables_days : result (option Q) :=
  if truthy net_sales
  then (q <- truediv debtors net_sales ;; Ok (Some (q * 365)))
  else Ok None.
Definition payables_days : result (option Q) :=
  if truthy cogs
  then (q <- truediv creditors cogs ;; Ok (Some (q * 365)))
  else Ok None.
End Locals.

(** ** The result of the engine *)

(** A value of the [ratios] dictionary: a number, or [None]. *)
Inductive value : Type :=
| Num (q : Q)
| PyNone.

Definition of_option (o : option Q) : value :=
  match o with
  | Some q => Num q
  | None => PyNone
  end.

(** The [ratios] dictionary, in insertion order. *)
Definition Ratios : Type := list (string * value).

(** The [breakdown] frame: columns [Category] and [Amount]. *)
Definition Breakdown : Type := list (string * Q).

Definition calculate_ratios (df : Frame) : result (Ratios * Breakdown) :=
  gross_margin_pct' <- gross_margin_pct df ;;
  operating_margin_pct' <- operating_margin_pct df ;;
  net_margin_pct' <- net_margin_pct df ;;
  current_ratio' <- current_ratio df ;;
  quick_ratio' <- quick_ratio df ;;
  receivables_days' <- receivables_days df ;;
  payables_days' <- payables_days df ;;
  let ratios := [
    ("Net sales (£)", Num (net_sales df));
    ("Gross profit (£)", Num (gross_profit df));
    ("Gross margin (%)", of_option gross_margin_pct');
    ("Operating profit (£)", Num (operating_profit df));
    ("Operating margin (%)", of_option operating_margin_pct');
    ("Profit before tax (£)", Num (profit_before_tax df));
    ("Net margin (PBT, %)", of_option net_margin_pct');
    ("Current assets (£)", Num (current_assets df));
    ("Current liabilities (£)", Num (current_liabilities df));
    ("Working capital (£)", Num (working_capital df));
    ("Current ratio", of_option current_ratio');
    ("Quick ratio", of_option quick_ratio');
    ("Receivables days", of_option receivables_days');
    ("Payables days", of_option payables_days')
  ] in
  let breakdown := [
    ("Net sales", net_sales df);
    ("Cost of sales", - cogs df);
    ("Gross profit", gross_profit df);
    ("Operating expenses", - operating_expenses df);
    ("Operating profit", operating_profit df);
    ("Finance cost", - finance_cost df);
    ("Profit before tax", profit_before_tax df)
  ] in
  Ok (ratios, breakdown).

(** [d[key]] on an association list: the first binding of [key]. *)
Fixpoint get {V : Type} (key : string) (d : list (string * V)) : option V :=
  match d with
  | [] => None
  | (k, v) :: d' => if String.eqb k key then Some v else get key d'
  end.

(** ** Text primitives used by the normaliser *)

(** [c.lower()], on the ASCII range. *)
Definition lower_ascii (a : ascii) : ascii :=
  let n := nat_of_ascii a in
  if ((65 <=? n) && (n <=? 90))%nat then ascii_of_nat (n + 32) else a.

Fixpoint lower (s : string) : string :=
  match s with
  | EmptyString => EmptyString
  | String a s' => String (lower_ascii a) (lower s')
  end.

(** [keyword in s]: [keyword] occurs in [s] as a contiguous substring. *)
Fixpoint str_in (keyword s : string) : bool :=
  String.prefix keyword s ||
  match s with
  | EmptyString => false
  | String _ s' => str_in keyword s'
  end.

(** *** Characters and decimal digits *)

(** A byte in 128..191 continues the character that the byte before it
    began or continued. *)
Definition is_continuation (a : ascii) : bool :=
  let n := nat_of_ascii a in ((128 <=? n) && (n <=? 191))%nat.

(** The piece of text still lacks the byte that begins its first
    character. *)
Definition continues (c : string) : bool :=
  match c with
  | EmptyString => false
  | String a _ => is_continuation a
  end.

(** The characters of a text, each as the bytes that encode it. *)
Fixpoint characters (s : string) : list string :=
  match s with
  | EmptyString => []
  | String a s' =>
      match characters s' with
      | [] => [String a EmptyString]
      | c :: cs =>
          if continues c then String a c :: cs
          else String a EmptyString :: c :: cs
      end
  end.

(** The ten values of a decimal digit. *)
Inductive decimal : Type :=
| d0 | d1 | d2 | d3 | d4 | d5 | d6 | d7 | d8 | d9.

Definition decimal_value (d : decimal) : Z :=
  match d with
  | d0 => 0 | d1 => 1 | d2 => 2 | d3 => 3 | d4 => 4
  | d5 => 5 | d6 => 6 | d7 => 7 | d8 => 8 | d9 => 9
  end.

Definition ascii_decimal (a : ascii) : option decimal :=
  match a with
  | "0" => Some d0 | "1" => Some d1 | "2" => Some d2 | "3" => Some d3
  | "4" => Some d4 | "5" => Some d5 | "6" => Some d6 | "7" => Some d7
  | "8" => Some d8 | "9" => Some d9
  | _ => None
  end%char.

(** Largest value of the integer type targeted by [astype(int)]. *)
Definition int64_max : Z := 9223372036854775807.

Section Digits.
(** The decimal value that the Unicode database gives to a character
    outside the ASCII range, [None] when the character is no decimal
    digit.  The regular expression class [\d] and [int] both go by it. *)
Variable unicode_decimal : string -> option decimal.

(** The decimal value of a character, if it is a decimal digit. *)
Definition to_decimal (c : string) : option decimal :=
  match c with
  | String a EmptyString =>
      if (nat_of_ascii a <? 128)%nat then ascii_decimal a
      else unicode_decimal c
  | _ => unicode_decimal c
  end.

(** The class [\d]. *)
Definition is_digit (c : string) : bool :=
  match to_decimal c with
  | Some _ => true
  | None => false
  end.

(** The longest prefix made of digits. *)
Fixpoint take_digits (cs : list string) : list string :=
  match cs with
  | [] => []
  | c :: cs' => if is_digit c then c :: take_digits cs' else []
  end.

(** The leftmost match of [\d+]: the first digit and the digits that
    follow it. *)
Fixpoint search_digits (cs : list string) : option (list string) :=
  match cs with
  | [] => None
  | c :: cs' =>
      if is_digit c then Some (c :: take_digits cs') else search_digits cs'
  end.

(** [.str.extract(r"(\d+)")[0]] on one cell: the characters of the
    leftmost, longest run of digits, or [None] (a missing value) when the
    text has no digit. *)
Definition extract_digits (s : string) : option (list string) :=
  search_digits (characters s).

(** [int(run)]: the integer denoted by a run of decimal digits, [None]
    when a character of the run is not one. *)
Fixpoint digits_value (acc : Z) (cs : list string) : option Z :=
  match cs with
  | [] => Some acc
  | c :: cs' =>
      match to_decimal c with
      | Some d => digits_value (10 * acc + decimal_value d) cs'
      | None => None
      end
  end.

(** [.astype(int)] on one extracted cell. *)
Definition astype_int (o : option (list string)) : result Z :=
  match o with
  | None => Raise (ValueError "cannot convert float NaN to integer")
  | Some run =>
      match digits_value 0 run with
      | None => Raise (ValueError "invalid literal for int() with base 10")
      | Some z => if (z <=? int64_max)%Z then Ok z else Raise OverflowError
      end
  end.

(** The text contains a decimal digit. *)
Definition has_digit (s : string) : bool :=
  existsb is_digit (characters s).
End Digits.

(** ** Raw tables *)

(** A cell of an uploaded table. *)
Inductive cell : Type :=
| CInt (z : Z)
| CFloat (q : Q)
| CText (s : string)
| CMissing.

(** An uploaded table: its header list, and its rows, each a mapping from
    header to cell ([df[c]] selects, in every row, the cell under the
    header [c]). *)
Record RawFrame : Type := mkRaw {
  columns : list string;
  rows : list (string -> cell)
}.

(** [find_col]: the first header, in column order, whose lower-cased text
    contains [keyword]. *)
Fixpoint find_col (cols : list string) (keyword : string) : option string :=
  match cols with
  | [] => None
  | c :: cols' =>
      if str_in keyword (lower c) then Some c else find_col cols' keyword
  end.

(** [a or b] on optional headers: [None] and the empty string are false. *)
Definition py_or (a b : option string) : option string :=
  match a with
  | None => b
  | Some EmptyString => b
  | Some _ => a
  end.

Definition code_col (cols : list string) : option string :=
  py_or (py_or (find_col cols "code") (find_col cols "n/c"))
        (find_col cols "nominal").
Definition name_col (cols : list string) : option string := find_col cols "name".
Definition debit_col (cols : list string) : option string := find_col cols "debit".
Definition credit_col (cols : list string) : option string := find_col cols "credit".

Definition missing_columns_msg : string :=
  ("Could not automatically detect columns for code/name/debit/credit. " ++
   "Please ensure your export includes those headings.")%string.

Section Normaliser.
(** Besides the decimal digits of the Unicode database, two functions of
    the libraries under the normaliser are parameters: the text of a
    floating-point cell ([str(x)]), and the numeric parser applied to a
    text cell by [pd.to_numeric], which yields [None] where the text is
    not a number. *)
Variable unicode_decimal : string -> option decimal.
Variable float_repr : Q -> string.
Variable parse_numeric : string -> option Q.

(** [.astype(str)] on one cell. *)
Definition astype_str (c : cell) : string :=
  match c with
  | CInt z => NilZero.string_of_int (Z.to_int z)
  | CFloat q => float_repr q
  | CText s => s
  | CMissing => "nan"
  end.

(** [pd.to_numeric(..., errors="coerce")] on one cell: [None] stands for
    the missing value produced by the coercion. *)
Definition to_numeric (c : cell) : option Q :=
  match c with
  | CInt z => Some (inject_Z z)
  | CFloat q => Some q
  | CText s => parse_numeric s
  | CMissing => None
  end.

(** [.fillna(0.0)] on one cell. *)
Definition fillna0 (o : option Q) : Q :=
  match o with
  | Some q => q
  | None => 0.0
  end.

(** The code of one row: text, first digit run, integer. *)
Definition row_code (c : cell) : result Z :=
  astype_int unicode_decimal
    (extract_digits unicode_decimal (astype_str c)).

(** One row of [out]. *)
Definition normalise_row (cc nc dc crc : string) (row : string -> cell)
  : result AccountRecord :=
  c <- row_code (row cc) ;;
  Ok (with_balance (c,
                    astype_str (row nc),
                    fillna0 (to_numeric (row dc)),
                    fillna0 (to_numeric (row crc)))).

(** The dictionary [cols_lower] that the source builds first is never
    read.  The list [missing] is non-empty exactly when one of the four
    columns is [None], which is the second branch below.  The columns of
    [out] are computed cell by cell, so they are built here row by row;
    the first row whose code cannot be converted raises, as the
    conversion of the whole column does. *)
Definition normalise_tb_columns (df : RawFrame) : result Frame :=
  match code_col (columns df), name_col (columns df),
        debit_col (columns df), credit_col (columns df) with
  | Some cc, Some nc, Some dc, Some crc =>
      mapM (normalise_row cc nc dc crc) (rows df)
  | _, _, _, _ => Raise (ValueError missing_columns_msg)
  end.
End Normaliser.

(** ** The page: [main]

    The calls to the user-interface library are modelled by what they
    put on the page.  The state of the sidebar toggle and the file handed
    over by the uploader are inputs; the two file readers are functions
    of the data-frame library and are parameters, as is the formatting of
    a floating-point number.  What was already drawn when an exception
    escapes is not recorded. *)

(** Exceptions that can escape [main]. *)
Inductive ui_exn : Type :=
| TypeError
| KeyError (key : string)
| IndexError
| Uncaught (e : exn).

Inductive run (A : Type) : Type :=
| Returns (a : A)
| Raises (e : ui_exn).

Arguments Returns {A} a.
Arguments Raises {A} e.

Definition run_bind {A B : Type} (m : run A) (k : A -> run B) : run B :=
  match m with
  | Returns a => k a
  | Raises e => Raises e
  end.

Notation "x <-- m ;; k" := (run_bind m (fun x => k))
  (at level 61, m at next level, right associativity).

(** A file handed over by the uploader. *)
Record UploadedFile : Type := mkFile {
  file_name : string;
  file_content : string
}.

(** The message shown in the sidebar. *)
Inductive sidebar : Type :=
| UsingDemo
| ParsedSuccessfully
| ErrorReadingFile (e : exn)
| NoMessage.

(** A KPI tile: [col.metric(label, value, delta)]. *)
Record metric : Type := mkMetric {
  label : string;
  metric_value : string;
  delta : option string
}.

(** What [main] leaves on the page when it returns: the invitation to
    upload a file, or the dashboard (the table in the expander, the
    tiles, the data of the bar chart). *)
Inductive page : Type :=
| UploadInvitation (side : sidebar)
| Dashboard (side : sidebar) (table : Frame) (tiles : list metric)
            (chart : Breakdown).

(** [s.endswith(suffix)] *)
Fixpoint endswith (s suffix : string) : bool :=
  String.eqb s suffix ||
  match s with
  | EmptyString => false
  | String _ s' => endswith s' suffix
  end.

Section Page.
Variable unicode_decimal : string -> option decimal.
Variable float_repr : Q -> string.
Variable parse_numeric : string -> option Q.
(** [pd.read_csv] and [pd.read_excel]. *)
Variable read_csv : UploadedFile -> result RawFrame.
Variable read_excel : UploadedFile -> result RawFrame.
(** [format(x, spec)] for a number [x]. *)
Variable format_float : string -> Q -> string.

(** [d[key]] *)
Definition getitem (key : string) (d : Ratios) : run value :=
  match get key d with
  | Some v => Returns v
  | None => Raises (KeyError key)
  end.

(** [format(v, spec)]: [None] supports no format specification. *)
Definition format (spec : string) (v : value) : run string :=
  match v with
  | Num q => Returns (format_float spec q)
  | PyNone => Raises TypeError
  end.

(** The replacement field [{ratios[key]:spec}] of a formatted string. *)
Definition field (ratios : Ratios) (key spec : string) : run string :=
  v <-- getitem key ratios ;; format spec v.

(** [breakdown.loc[breakdown['Category'] == category, 'Amount'].iloc[0]] *)
Definition first_amount (category : string) (breakdown : Breakdown) : run Q :=
  match get category breakdown with
  | Some a => Returns a
  | None => Raises IndexError
  end.

(** The ten KPI tiles, their texts computed in the order of the source. *)
Definition kpi_tiles (ratios : Ratios) (breakdown : Breakdown)
  : run (list metric) :=
  net_sales_text <-- field ratios "Net sales (£)" ",.2f" ;;
  gross_profit_text <-- field ratios "Gross profit (£)" ",.2f" ;;
  gross_margin_text <-- field ratios "Gross margin (%)" ".2f" ;;
  operating_profit_text <-- field ratios "Operating profit (£)" ",.2f" ;;
  operating_margin_text <-- field ratios "Operating margin (%)" ".2f" ;;
  pbt_text <-- field ratios "Profit before tax (£)" ",.2f" ;;
  net_margin_text <-- field ratios "Net margin (PBT, %)" ".2f" ;;
  finance_cost_amount <-- first_amount "Finance cost" breakdown ;;
  current_ratio_text <-- field ratios "Current ratio" ".2f" ;;
  quick_ratio_text <-- field ratios "Quick ratio" ".2f" ;;
  working_capital_text <-- field ratios "Working capital (£)" ",.2f" ;;
  receivables_text <-- field ratios "Receivables days" ".1f" ;;
  payables_text <-- field ratios "Payables days" ".1f" ;;
  Returns [
    mkMetric "Net sales (£)" net_sales_text None;
    mkMetric "Gross profit (£)" gross_profit_text
             (Some (gross_margin_text ++ "% GP margin")%string);
    mkMetric "Operating profit (£)" operating_profit_text
             (Some (operating_margin_text ++ "% OP margin")%string);
    mkMetric "Profit before tax (£)" pbt_text
             (Some (net_margin_text ++ "% net margin")%string);
    mkMetric "Finance cost (£)"
             (format_float ",.2f" (- finance_cost_amount)) None;
    mkMetric "Current ratio" current_ratio_text None;
    mkMetric "Quick ratio" quick_ratio_text None;
    mkMetric "Working capital (£)" working_capital_text None;
    mkMetric "Receivables days" (receivables_text ++ " days")%string None;
    mkMetric "Payables days" (payables_text ++ " days")%string None
  ].

(** The body of the [try] block: read the file, then normalise it. *)
Definition read_and_normalise (f : UploadedFile) : result Frame :=
  raw <- (if endswith (lower (file_name f)) ".csv"
          then read_csv f else read_excel f) ;;
  normalise_tb_columns unicode_decimal float_repr parse_numeric raw.

(** The first half of [main]: [df_tb] and the sidebar message.  The
    uploader is shown, and its file looked at, only when the demo toggle
    is off; any exception of the [try] block is caught and reported. *)
Definition trial_balance (use_demo : bool)
    (uploaded_file : option UploadedFile) : option Frame * sidebar :=
  if use_demo then (Some load_demo_trial_balance, UsingDemo)
  else
    match uploaded_file with
    | Some f =>
        match read_and_normalise f with
        | Ok df => (Some df, ParsedSuccessfully)
        | Raise e => (None, ErrorReadingFile e)
        end
    | None => (None, NoMessage)
    end.

Definition main (use_demo : bool) (uploaded_file : option UploadedFile)
  : run page :=
  let '(df_tb, side) := trial_balance use_demo uploaded_file in
  match df_tb with
  | None => Returns (UploadInvitation side)
  | Some df =>
      match calculate_ratios df with
      | Raise e => Raises (Uncaught e)
      | Ok (ratios, breakdown) =>
          tiles <-- kpi_tiles ratios breakdown ;;
          Returns (Dashboard side df tiles breakdown)
      end
  end.
End Page.

(** The labels of the ten tiles, in order. *)
Definition tile_labels : list string :=
  ["Net sales (£)"; "Gross profit (£)"; "Operating profit (£)";
   "Profit before tax (£)"; "Finance cost (£)"; "Current ratio";
   "Quick ratio"; "Working capital (£)"; "Receivables days";
   "Payables days"].

(** For the examples: readers that find the same table in every file,
    and a formatting that writes the integer part of the number. *)
Definition example_read (raw : RawFrame) (f : UploadedFile)
  : result RawFrame := Ok raw.

Definition example_format_float (spec : string) (q : Q) : string :=
  NilZero.string_of_int (Z.to_int (Qfloor q)).

Definition example_file : UploadedFile := mkFile "TB.CSV" "".

(** ** Observing the result of the engine *)

(** The entry of the [ratios] dictionary under [key], when the engine
    returns. *)
Definition ratio (key : string) (df : Frame) : option value :=
  match calculate_ratios df with
  | Ok (ratios, _) => get key ratios
  | Raise _ => None
  end.

(** The [Amount] of the breakdown row of category [key], when the engine
    returns. *)
Definition amount (key : string) (df : Frame) : option Q :=
  match calculate_ratios df with
  | Ok (_, breakdown) => get key breakdown
  | Raise _ => None
  end.

(** The value of a conditional expression [v if den else None]. *)
Definition guard (den v : Q) : option Q :=
  if truthy den then Some v else None.

(** ** Notions used to state the properties *)

(** The derived column agrees with its inputs. *)
Definition balance_invariant (r : AccountRecord) : Prop :=
  balance r = debit r - credit r.

(** One of the four fields is resolved to no column. *)
Definition unresolved (cols : list string) : Prop :=
  code_col cols = None \/ name_col cols = None \/
  debit_col cols = None \/ credit_col cols = None.

(** The frames the program hands to the engine: the demo frame, and the
    frames returned by the normaliser. *)
Inductive produced (unicode_decimal : string -> option decimal)
    (float_repr : Q -> string)
    (parse_numeric : string -> option Q) : Frame -> Prop :=
| produced_demo :
    produced unicode_decimal float_repr parse_numeric load_demo_trial_balance
| produced_upload (df : RawFrame) (out : Frame) :
    normalise_tb_columns unicode_decimal float_repr parse_numeric df = Ok out ->
    produced unicode_decimal float_repr parse_numeric out.

(** ** Example inputs *)

(** A row given by its cells; a header without a cell is missing. *)
Definition row_of (cells : list (string * cell)) : string -> cell :=
  fun h => match get h cells with
           | Some c => c
           | None => CMissing
           end.

(** For the examples: the text of an integer-valued float, and a numeric
    parser that accepts unsigned decimal integers. *)
Definition example_float_repr (q : Q) : string :=
  (NilZero.string_of_int (Z.to_int (Qfloor q)) ++ ".0")%string.

Definition example_parse_numeric (s : string) : option Q :=
  match s with
  | EmptyString => None
  | _ => option_map inject_Z
                    (digits_value (fun _ => None) 0 (characters s))
  end.

(** For the examples: a Unicode database that knows the Arabic-Indic
    digits U+0660 to U+0669 (bytes 217, 160 to 169) and no other. *)
Definition example_unicode_decimal (c : string) : option decimal :=
  match c with
  | String a (String b EmptyString) =>
      if ((nat_of_ascii a =? 217) && (160 <=? nat_of_ascii b))%nat
      then nth_error [d0; d1; d2; d3; d4; d5; d6; d7; d8; d9]
                     (nat_of_ascii b - 160)
      else None
  | _ => None
  end.

Definition single_revenue_frame : Frame :=
  [with_balance (4000%Z, "Sales North", 0, 1000)].

Definition no_revenue_frame : Frame :=
  [with_balance (5000%Z, "Materials Purchased", 45446.48, 0.00);
   with_balance (2100%Z, "Creditors Control Account", 0.00, 36572.97)].

Definition mispostings : AccountRecord :=
  with_balance (9999%Z, "Mispostings Account", 205.00, 0.00).

Definition header_only_table : RawFrame :=
  mkRaw ["N/C"; "Account Name"; "Debit"; "Credit"] [].

Definition lenient_table : RawFrame :=
  mkRaw ["N/C"; "Account Name"; "Debit"; "Credit"]
    [row_of [("N/C", CText "N4000"); ("Account Name", CText "Sales North");
             ("Debit", CText "n/a"); ("Credit", CFloat 1000)];
     row_of [("N/C", CInt 7903); ("Account Name", CText "Loan Interest Paid");
             ("Debit", CFloat 83.25); ("Credit", CMissing)]].

Definition long_code_table : RawFrame :=
  mkRaw ["Code"; "Name"; "Debit"; "Credit"]
    [row_of [("Code", CText "99999999999999999999");
             ("Name", CText "Suspense"); ("Debit", CInt 10);
             ("Credit", CInt 0)]].

(** ** Notions used to state further properties *)

(** The keys of the [ratios] dictionary and the categories of the
    breakdown, in order. *)
Definition ratio_keys : list string :=
  ["Net sales (£)"; "Gross profit (£)"; "Gross margin (%)";
   "Operating profit (£)"; "Operating margin (%)"; "Profit before tax (£)";
   "Net margin (PBT, %)"; "Current assets (£)"; "Current liabilities (£)";
   "Working capital (£)"; "Current ratio"; "Quick ratio";
   "Receivables days"; "Payables days"].

Definition breakdown_categories : list string :=
  ["Net sales"; "Cost of sales"; "Gross profit"; "Operating expenses";
   "Operating profit"; "Finance cost"; "Profit before tax"].

(** What the engine reads of a record. *)
Definition key_of (r : AccountRecord) : Z * Q := (code r, balance r).

(** The code of the record belongs to the category map. *)
Definition mapped (r : AccountRecord) : bool :=
  isin category_codes (code r).

(** Further example inputs: an export that ends with a totals row
    without a code, and an export with one signed amount column. *)
Definition totals_row_table : RawFrame :=
  mkRaw ["N/C"; "Name"; "Debit"; "Credit"]
    [row_of [("N/C", CInt 4000); ("Name", CText "Sales North");
             ("Debit", CMissing); ("Credit", CFloat 1000)];
     row_of [("Name", CText "Totals");
             ("Debit", CFloat 1000); ("Credit", CFloat 1000)]].

Definition signed_amount_table : RawFrame :=
  mkRaw ["Code"; "Name"; "Debit/(Credit)"]
    [row_of [("Code", CInt 4000); ("Name", CText "Sales North");
             ("Debit/(Credit)", CInt (-1000))];
     row_of [("Code", CInt 5000); ("Name", CText "Materials Purchased");
             ("Debit/(Credit)", CInt 400)]].

(** Two resolutions pick the column at the same position of their
    header lists, or both pick none. *)
Definition same_position (cols cols' : list string)
    (o o' : option string) : Prop :=
  match o, o' with
  | Some c, Some c' =>
      exists pre post pre' post',
        cols = pre ++ c :: post /\ cols' = pre' ++ c' :: post' /\
        length pre = length pre'
  | None, None => True
  | _, _ => False
  end.


(** ** The guards of the engine protect every division *)

Lemma truthy_true_iff (x : Q) : truthy x = true <-> ~ x == 0.
Proof.
  unfold truthy. rewrite negb_true_iff.
  destruct (Qeq_bool x 0) eqn:E.
  - apply Qeq_bool_iff in E. split; [discriminate | tauto].
  - split; [| reflexivity]. intros _ H.
    apply Qeq_bool_iff in H. congruence.
Qed.

Lemma truthy_false_iff (x : Q) : truthy x = false <-> x == 0.
Proof.
  unfold truthy. rewrite negb_false_iff. apply Qeq_bool_iff.
Qed.

Lemma truediv_guarded (a b : Q) :
  truthy b = true -> truediv a b = Ok (a / b).
Proof.
  unfold truthy, truediv. intros H.
  apply negb_true_iff in H. rewrite H. reflexivity.
Qed.

Ltac guarded_division :=
  unfold guard;
  match goal with
  | |- context [truthy ?d] =>
      let E := fresh "E" in
      destruct (truthy d) eqn:E;
      [rewrite truediv_guarded by exact E |]; reflexivity
  end.

Lemma gross_margin_pct_eq (df : Frame) :
  gross_margin_pct df
  = Ok (guard (net_sales df) (gross_profit df / net_sales df * 100)).
Proof. unfold gross_margin_pct. guarded_division. Qed.

Lemma operating_margin_pct_eq (df : Frame) :
  operating_margin_pct df
  = Ok (guard (net_sales df) (operating_profit df / net_sales df * 100)).
Proof. unfold operating_margin_pct. guarded_division. Qed.

Lemma net_margin_pct_eq (df : Frame) :
  net_margin_pct df
  = Ok (guard (net_sales df) (profit_before_tax df / net_sales df * 100)).
Proof. unfold net_margin_pct. guarded_division. Qed.

Lemma current_ratio_eq (df : Frame) :
  current_ratio df
  = Ok (guard (current_liabilities df)
              (current_assets df / current_liabilities df)).
Proof. unfold current_ratio. guarded_division. Qed.

Lemma quick_ratio_eq (df : Frame) :
  quick_ratio df
  = Ok (guard (current_liabilities df)
              (quick_assets df / current_liabilities df)).
Proof. unfold quick_ratio. guarded_division. Qed.

Lemma receivables_days_eq (df : Frame) :
  receivables_days df
  = Ok (guard (net_sales df) (debtors df / net_sales df * 365)).
Proof. unfold receivables_days. guarded_division. Qed.

Lemma payables_days_eq (df : Frame) :
  payables_days df = Ok (guard (cogs df) (creditors df / cogs df * 365)).
Proof. unfold payables_days. guarded_division. Qed.

(** The engine returns on every frame, and this is what it returns. *)
Lemma calculate_ratios_returns (df : Frame) :
  calculate_ratios df =
  Ok ([("Net sales (£)", Num (net_sales df));
       ("Gross profit (£)", Num (gross_profit df));
       ("Gross margin (%)",
        of_option (guard (net_sales df)
                         (gross_profit df / net_sales df * 100)));
       ("Operating profit (£)", Num (operating_profit df));
       ("Operating margin (%)",
        of_option (guard (net_sales df)
                         (operating_profit df / net_sales df * 100)));
       ("Profit before tax (£)", Num (profit_before_tax df));
       ("Net margin (PBT, %)",
        of_option (guard (net_sales df)
                         (profit_before_tax df / net_sales df * 100)));
       ("Current assets (£)", Num (current_assets df));
       ("Current liabilities (£)", Num (current_liabilities df));
       ("Working capital (£)", Num (working_capital df));
       ("Current ratio",
        of_option (guard (current_liabilities df)
                         (current_assets df / current_liabilities df)));
       ("Quick ratio",
        of_option (guard (current_liabilities df)
                         (quick_assets df / current_liabilities df)));
       ("Receivables days",
        of_option (guard (net_sales df) (debtors df / net_sales df * 365)));
       ("Payables days",
        of_option (guard (cogs df) (creditors df / cogs df * 365)))],
      [("Net sales", net_sales df);
       ("Cost of sales", - cogs df);
       ("Gross profit", gross_profit df);
       ("Operating expenses", - operating_expenses df);
       ("Operating profit", operating_profit df);
       ("Finance cost", - finance_cost df);
       ("Profit before tax", profit_before_tax df)]).
Proof.
  unfold calculate_ratios.
  rewrite gross_margin_pct_eq, operating_margin_pct_eq, net_margin_pct_eq,
    current_ratio_eq, quick_ratio_eq, receivables_days_eq, payables_days_eq.
  reflexivity.
Qed.

(** ** The demo trial balance, end to end *)

Lemma demo_has_58_rows : length load_demo_trial_balance = 58%nat.
Proof. reflexivity. Qed.

(** C1, as the code has it.  On the shipped demo trial balance of 58 rows
    the engine returns net sales of exactly 189160.04 (sales of 189210.04
    less discounts allowed of 50.00), a current ratio that is defined,
    positive and strictly below 1, and payables days and receivables days
    that are both defined and positive. *)
Theorem demo_end_to_end :
  length load_demo_trial_balance = 58%nat /\
  sales load_demo_trial_balance == 189210.04 /\
  discounts load_demo_trial_balance == 50 /\
  (exists ns, ratio "Net sales (£)" load_demo_trial_balance = Some (Num ns) /\
              ns == 189160.04) /\
  (exists cr, ratio "Current ratio" load_demo_trial_balance = Some (Num cr) /\
              0 < cr /\ cr < 1) /\
  (exists pd, ratio "Payables days" load_demo_trial_balance = Some (Num pd) /\
              0 < pd) /\
  (exists rd, ratio "Receivables days" load_demo_trial_balance = Some (Num rd) /\
              0 < rd).
Proof.
  split; [reflexivity |].
  split; [vm_compute; reflexivity |].
  split; [vm_compute; reflexivity |].
  repeat split; eexists; (split; [vm_compute; reflexivity |]);
    repeat split; vm_compute; reflexivity.
Qed.

(** C1, as stated, fails on the code: the net sales of the demo trial
    balance are not within half a penny of 189210.04, and its current
    ratio is not above 1. *)
Lemma demo_end_to_end_as_stated_fails :
  ~ (exists ns, ratio "Net sales (£)" load_demo_trial_balance = Some (Num ns) /\
                Qabs (ns - 189210.04) < 0.005) /\
  ~ (exists cr, ratio "Current ratio" load_demo_trial_balance = Some (Num cr) /\
                1 < cr).
Proof.
  split; intros [x [Hx Hlt]]; vm_compute in Hx;
    injection Hx as <-; vm_compute in Hlt; discriminate.
Qed.

(** ** The breakdown *)

(** C2, as the code has it.  On every frame the engine returns, and the
    breakdown has the seven rows net sales, cost of sales, gross profit,
    operating expenses, operating profit, finance cost, profit before tax,
    in this order; cost of sales, operating expenses and finance cost are
    stored negated.  Net sales plus the cost-of-sales amount is gross
    profit, and operating profit plus the finance-cost amount is profit
    before tax; gross profit plus the operating-expenses amount reaches
    operating profit only once miscellaneous income (the negated balance
    of code 4900, which has no row of its own) is added. *)
Theorem breakdown_walk (df : Frame) :
  exists ratios ns cs gp oe op fc pbt,
    calculate_ratios df =
      Ok (ratios,
          [("Net sales", ns); ("Cost of sales", cs); ("Gross profit", gp);
           ("Operating expenses", oe); ("Operating profit", op);
           ("Finance cost", fc); ("Profit before tax", pbt)]) /\
    cs = - cogs df /\
    oe = - operating_expenses df /\
    fc = - finance_cost df /\
    ns + cs == gp /\
    gp + oe + - bal df 4900 == op /\
    op + fc == pbt.
Proof.
  rewrite calculate_ratios_returns.
  do 8 eexists.
  split; [reflexivity |].
  repeat split; reflexivity.
Qed.

(** C2, as stated, fails on the code: on the demo trial balance, whose
    miscellaneous income is 60.03, the gross-profit amount plus the
    operating-expenses amount is not the operating-profit amount. *)
Lemma breakdown_walk_not_additive :
  exists gp oe op,
    amount "Gross profit" load_demo_trial_balance = Some gp /\
    amount "Operating expenses" load_demo_trial_balance = Some oe /\
    amount "Operating profit" load_demo_trial_balance = Some op /\
    ~ gp + oe == op /\
    op - (gp + oe) == 60.03.
Proof.
  do 3 eexists.
  split; [vm_compute; reflexivity |].
  split; [vm_compute; reflexivity |].
  split; [vm_compute; reflexivity |].
  split.
  - intros H. apply Qeq_bool_iff in H. vm_compute in H. discriminate.
  - vm_compute. reflexivity.
Qed.

(** ** Undefined ratios *)

Lemma guard_zero (den v : Q) : den == 0 -> guard den v = None.
Proof.
  intros H. unfold guard.
  apply truthy_false_iff in H. rewrite H. reflexivity.
Qed.

(** C3.  On every frame whose net sales are 0 the engine returns (it
    raises nothing), and gross margin, operating margin, net margin and
    receivables days are each [None], which is no number at all, so not
    the number 0. *)
Theorem zero_net_sales_undefined (df : Frame) :
  net_sales df == 0 ->
  (exists out, calculate_ratios df = Ok out) /\
  ratio "Gross margin (%)" df = Some PyNone /\
  ratio "Operating margin (%)" df = Some PyNone /\
  ratio "Net margin (PBT, %)" df = Some PyNone /\
  ratio "Receivables days" df = Some PyNone /\
  (forall q, PyNone <> Num q).
Proof.
  intros H.
  split; [rewrite calculate_ratios_returns; eexists; reflexivity |].
  unfold ratio. rewrite calculate_ratios_returns.
  cbn [get String.eqb Ascii.eqb Bool.eqb].
  rewrite !(guard_zero (net_sales df)) by exact H.
  repeat split; try reflexivity.
  intros q; discriminate.
Qed.

Lemma zero_net_sales_undefined_witness :
  net_sales no_revenue_frame == 0 /\
  ratio "Gross margin (%)" no_revenue_frame = Some PyNone /\
  ratio "Receivables days" no_revenue_frame = Some PyNone.
Proof.
  assert (H : net_sales no_revenue_frame == 0) by reflexivity.
  split; [exact H |].
  destruct (zero_net_sales_undefined no_revenue_frame H)
    as [_ [Hg [_ [_ [Hr _]]]]].
  split; [exact Hg | exact Hr].
Defined.

(** ** Sign convention *)

(** C8.  On the single revenue row (code 4000, debit 0, credit 1000) the
    stored balance is -1000, the engine computes sales of +1000, and the
    "Net sales" amount of the breakdown is +1000, not -1000. *)
Theorem single_revenue_row_sign :
  map balance single_revenue_frame = [-1000] /\
  sales single_revenue_frame == 1000 /\
  exists a, amount "Net sales" single_revenue_frame = Some a /\
            a == 1000 /\ ~ a == -1000.
Proof.
  split; [reflexivity |].
  split; [reflexivity |].
  eexists. split; [vm_compute; reflexivity |].
  split; [reflexivity |].
  intros H. apply Qeq_bool_iff in H. vm_compute in H. discriminate.
Qed.

(** ** Codes outside the category map *)

Lemma loc_skip (mask : AccountRecord -> bool) (df1 df2 : Frame)
    (r : AccountRecord) :
  mask r = false -> loc mask (df1 ++ r :: df2) = loc mask (df1 ++ df2).
Proof.
  intros H. unfold loc.
  rewrite !filter_app. cbn [filter]. rewrite H. reflexivity.
Qed.

Lemma isin_false_In (codes : list Z) (c k : Z) :
  isin codes c = false -> In k codes -> Z.eqb c k = false.
Proof.
  unfold isin. intros H Hk.
  destruct (Z.eqb c k) eqn:E; [| reflexivity].
  rewrite <- H. symmetry. apply existsb_exists.
  exists k. split; assumption.
Qed.

Lemma isin_false_incl (small big : list Z) (c : Z) :
  incl small big -> isin big c = false -> isin small c = false.
Proof.
  intros Hincl H.
  destruct (isin small c) eqn:E; [| reflexivity].
  unfold isin in E. apply existsb_exists in E. destruct E as [k [Hk Ek]].
  rewrite (isin_false_In big c k H (Hincl k Hk)) in Ek. discriminate.
Qed.

Lemma sum_isin_skip (codes : list Z) (df1 df2 : Frame) (r : AccountRecord) :
  incl codes category_codes ->
  isin category_codes (code r) = false ->
  sum_isin codes (df1 ++ r :: df2) = sum_isin codes (df1 ++ df2).
Proof.
  intros Hincl H. unfold sum_isin.
  rewrite loc_skip; [reflexivity |].
  exact (isin_false_incl codes category_codes (code r) Hincl H).
Qed.

Lemma bal_skip (k : Z) (df1 df2 : Frame) (r : AccountRecord) :
  In k category_codes ->
  isin category_codes (code r) = false ->
  bal (df1 ++ r :: df2) k = bal (df1 ++ df2) k.
Proof.
  intros Hk H. unfold bal.
  rewrite loc_skip; [reflexivity |].
  exact (isin_false_In category_codes (code r) k H Hk).
Qed.

Ltac in_category_map :=
  solve [ unfold incl; cbn; intros; tauto | cbn; tauto ].

(** C9.  A record whose code belongs to no category of the map can be
    inserted anywhere in a frame, or removed from it, without changing
    anything the engine returns: every entry of the ratios and every row
    of the breakdown is the same. *)
Theorem unknown_code_excluded (df1 df2 : Frame) (r : AccountRecord) :
  isin category_codes (code r) = false ->
  calculate_ratios (df1 ++ r :: df2) = calculate_ratios (df1 ++ df2).
Proof.
  intros H.
  unfold calculate_ratios, gross_margin_pct, operating_margin_pct,
    net_margin_pct, current_ratio, quick_ratio, receivables_days,
    payables_days, profit_before_tax, operating_profit, working_capital,
    quick_assets, gross_profit, net_sales, operating_expenses, sales,
    discounts, cogs, expenses, ssp_smp_recovery, misc_income, finance_cost,
    current_assets, current_liabilities, debtors, creditors.
  rewrite !(sum_isin_skip sales_codes df1 df2 r) by (in_category_map || exact H).
  rewrite !(sum_isin_skip cogs_codes df1 df2 r) by (in_category_map || exact H).
  rewrite !(sum_isin_skip expense_codes df1 df2 r)
    by (in_category_map || exact H).
  rewrite !(sum_isin_skip [7010; 7011]%Z df1 df2 r)
    by (in_category_map || exact H).
  rewrite !(sum_isin_skip current_asset_codes df1 df2 r)
    by (in_category_map || exact H).
  rewrite !(sum_isin_skip current_liability_codes df1 df2 r)
    by (in_category_map || exact H).
  rewrite !(bal_skip 4009 df1 df2 r) by (in_category_map || exact H).
  rewrite !(bal_skip 4900 df1 df2 r) by (in_category_map || exact H).
  rewrite !(bal_skip 7903 df1 df2 r) by (in_category_map || exact H).
  rewrite !(bal_skip 1103 df1 df2 r) by (in_category_map || exact H).
  rewrite !(bal_skip 1100 df1 df2 r) by (in_category_map || exact H).
  rewrite !(bal_skip 2100 df1 df2 r) by (in_category_map || exact H).
  reflexivity.
Qed.

Lemma unknown_code_excluded_witness :
  isin category_codes (code mispostings) = false /\
  calculate_ratios (single_revenue_frame ++ mispostings :: no_revenue_frame)
  = calculate_ratios (single_revenue_frame ++ no_revenue_frame).
Proof.
  assert (H : isin category_codes (code mispostings) = false) by reflexivity.
  split; [exact H |].
  exact (unknown_code_excluded single_revenue_frame no_revenue_frame
           mispostings H).
Defined.

(** ** Column discovery *)

Lemma prefix_spec (kw s : string) :
  String.prefix kw s = true <-> exists post, s = (kw ++ post)%string.
Proof.
  revert s. induction kw as [| a kw IH]; intros s.
  - split; [intros _; exists s; reflexivity | intros _; destruct s; reflexivity].
  - destruct s as [| b s]; cbn.
    + split; [discriminate | intros [post H]; discriminate].
    + destruct (ascii_dec a b) as [-> | Hne].
      * rewrite IH. split; intros [post H]; exists post.
        -- rewrite H. reflexivity.
        -- injection H as H. exact H.
      * split; [discriminate |].
        intros [post H]. injection H as Hab _. congruence.
Qed.

(** [str_in] is the substring test. *)
Lemma str_in_spec (kw s : string) :
  str_in kw s = true <-> exists pre post, s = (pre ++ kw ++ post)%string.
Proof.
  induction s as [| a s IH]; cbn [str_in]; rewrite orb_true_iff.
  - split.
    + intros [H | H]; [| discriminate].
      apply prefix_spec in H. destruct H as [post H].
      exists EmptyString, post. exact H.
    + intros [pre [post H]]. left. apply prefix_spec.
      destruct pre; [exists post; exact H | discriminate].
  - rewrite IH. split.
    + intros [H | [pre [post H]]].
      * apply prefix_spec in H. destruct H as [post H].
        exists EmptyString, post. exact H.
      * exists (String a pre), post. rewrite H. reflexivity.
    + intros [pre [post H]]. destruct pre as [| b pre].
      * left. apply prefix_spec. exists post. exact H.
      * right. injection H as _ H. exists pre, post. exact H.
Qed.

Lemma str_in_empty (kw : string) :
  kw <> EmptyString -> str_in kw EmptyString = false.
Proof. destruct kw; [congruence | reflexivity]. Qed.

(** [find_col] returns the first header, in column order, that matches. *)
Lemma find_col_Some (cols : list string) (kw c : string) :
  find_col cols kw = Some c <->
  exists pre post,
    cols = pre ++ c :: post /\
    str_in kw (lower c) = true /\
    Forall (fun h => str_in kw (lower h) = false) pre.
Proof.
  induction cols as [| h cols IH]; cbn [find_col].
  - split; [discriminate |].
    intros [pre [post [H _]]]. destruct pre; discriminate.
  - destruct (str_in kw (lower h)) eqn:E.
    + split.
      * intros H. injection H as <-.
        exists [], cols. repeat split; [exact E | constructor].
      * intros [pre [post [H [Hc Hpre]]]].
        destruct pre as [| h' pre]; cbn in H; injection H as -> H.
        -- reflexivity.
        -- inversion Hpre; congruence.
    + rewrite IH. split.
      * intros [pre [post [H [Hc Hpre]]]].
        exists (h :: pre), post. subst cols.
        repeat split; [exact Hc | constructor; assumption].
      * intros [pre [post [H [Hc Hpre]]]].
        destruct pre as [| h' pre]; cbn in H; injection H as -> H.
        -- congruence.
        -- exists pre, post. inversion Hpre; subst. repeat split; assumption.
Qed.

Lemma find_col_None (cols : list string) (kw : string) :
  find_col cols kw = None <->
  Forall (fun h => str_in kw (lower h) = false) cols.
Proof.
  induction cols as [| h cols IH]; cbn [find_col].
  - split; [constructor | reflexivity].
  - destruct (str_in kw (lower h)) eqn:E.
    + split; [discriminate | intros H; inversion H; congruence].
    + rewrite IH. split; [constructor; assumption | intros H; inversion H; assumption].
Qed.

Lemma find_col_nonempty (cols : list string) (kw : string) :
  kw <> EmptyString -> find_col cols kw <> Some EmptyString.
Proof.
  intros Hkw H. apply find_col_Some in H.
  destruct H as [_ [_ [_ [H _]]]].
  cbn [lower] in H. rewrite str_in_empty in H by exact Hkw. discriminate.
Qed.

Lemma py_or_find_col (cols : list string) (kw : string) (b : option string) :
  kw <> EmptyString ->
  py_or (find_col cols kw) b =
  match find_col cols kw with
  | Some c => Some c
  | None => b
  end.
Proof.
  intros Hkw. pose proof (find_col_nonempty cols kw Hkw) as H.
  destruct (find_col cols kw) as [[| a c] |]; [congruence | reflexivity ..].
Qed.

(** The code column: "code" first, then "n/c", then "nominal". *)
Lemma code_col_priority (cols : list string) :
  code_col cols =
  match find_col cols "code" with
  | Some c => Some c
  | None =>
      match find_col cols "n/c" with
      | Some c => Some c
      | None => find_col cols "nominal"
      end
  end.
Proof.
  unfold code_col.
  rewrite (py_or_find_col cols "code") by discriminate.
  destruct (find_col cols "code") as [c |] eqn:E.
  - pose proof (find_col_nonempty cols "code") as H. rewrite E in H.
    destruct c; [exfalso; apply H; [discriminate | reflexivity] | reflexivity].
  - rewrite (py_or_find_col cols "n/c") by discriminate. reflexivity.
Qed.

(** C5.  Column discovery looks for the keywords "code", "name", "debit"
    and "credit" as substrings of the lower-cased headers; the first
    header in column order that contains the keyword wins; for the code
    field "code" is tried first, then "n/c", then "nominal"; and the
    headers "Code", "CODE" and "N/C" each resolve to the code column. *)
Theorem column_discovery :
  (forall kw s,
     str_in kw s = true <-> exists pre post, s = (pre ++ kw ++ post)%string) /\
  (forall cols kw c,
     find_col cols kw = Some c <->
     exists pre post,
       cols = pre ++ c :: post /\
       str_in kw (lower c) = true /\
       Forall (fun h => str_in kw (lower h) = false) pre) /\
  (forall cols kw,
     find_col cols kw = None <->
     Forall (fun h => str_in kw (lower h) = false) cols) /\
  (forall cols,
     code_col cols =
     match find_col cols "code" with
     | Some c => Some c
     | None =>
         match find_col cols "n/c" with
         | Some c => Some c
         | None => find_col cols "nominal"
         end
     end) /\
  (forall cols,
     name_col cols = find_col cols "name" /\
     debit_col cols = find_col cols "debit" /\
     credit_col cols = find_col cols "credit") /\
  lower "CODE" = "code" /\
  code_col ["Name"; "Code"; "Debit"; "Credit"] = Some "Code" /\
  code_col ["Name"; "CODE"; "Debit"; "Credit"] = Some "CODE" /\
  code_col ["Name"; "N/C"; "Debit"; "Credit"] = Some "N/C" /\
  code_col ["Nominal"; "N/C"; "Account Code"; "Zip code"]
    = Some "Account Code".
Proof.
  split; [exact str_in_spec |].
  split; [exact find_col_Some |].
  split; [exact find_col_None |].
  split; [exact code_col_priority |].
  split; [intros cols; repeat split |].
  repeat split.
Qed.

(** ** Row-wise conversion: all rows, or an exception *)

Lemma mapM_Forall2 {A B : Type} (f : A -> result B) (l : list A)
    (out : list B) :
  mapM f l = Ok out <-> Forall2 (fun a b => f a = Ok b) l out.
Proof.
  revert out. induction l as [| a l IH]; intros out; cbn [mapM].
  - split.
    + intros H. injection H as <-. constructor.
    + intros H. inversion H. reflexivity.
  - split.
    + destruct (f a) as [b | e] eqn:Ea; cbn [bind]; [| discriminate].
      destruct (mapM f l) as [bs | e] eqn:El; cbn [bind]; [| discriminate].
      intros H. injection H as <-.
      constructor; [exact Ea | apply IH; reflexivity].
    + intros H. inversion H as [| a' b l' bs Ha Hl]; subst.
      rewrite Ha. cbn [bind].
      apply IH in Hl. rewrite Hl. reflexivity.
Qed.

Lemma mapM_length {A B : Type} (f : A -> result B) (l : list A)
    (out : list B) :
  mapM f l = Ok out -> length out = length l.
Proof.
  intros H. apply mapM_Forall2 in H.
  symmetry. exact (Forall2_length H).
Qed.

Lemma mapM_Raise {A B : Type} (f : A -> result B) (l : list A) :
  (exists e, mapM f l = Raise e) <->
  exists a, In a l /\ exists e, f a = Raise e.
Proof.
  induction l as [| a l IH]; cbn [mapM].
  - split; [intros [e H]; discriminate | intros [a [[] _]]].
  - destruct (f a) as [b | e] eqn:Ea; cbn [bind].
    + destruct (mapM f l) as [bs | e] eqn:El; cbn [bind].
      * split; [intros [e H]; discriminate |].
        intros [a' [[<- | Hin] [e He]]]; [congruence |].
        destruct (proj2 IH (ex_intro _ a' (conj Hin (ex_intro _ e He))))
          as [e0 He0]. discriminate.
      * split; [| intros _; exists e; reflexivity].
        intros _. destruct (proj1 IH (ex_intro _ e eq_refl)) as [a' [Hin He]].
        exists a'. split; [right; exact Hin | exact He].
    + split; [| intros _; exists e; reflexivity].
      intros _. exists a. split; [left; reflexivity | exists e; exact Ea].
Qed.

Lemma mapM_total {A B : Type} (f : A -> result B) (l : list A) :
  (exists e, mapM f l = Raise e) \/
  (exists out, mapM f l = Ok out /\ length out = length l).
Proof.
  destruct (mapM f l) as [out | e] eqn:E.
  - right. exists out. split; [reflexivity | exact (mapM_length f l out E)].
  - left. exists e. reflexivity.
Qed.

(** ** Code extraction *)

Section DigitFacts.
Variable unicode_decimal : string -> option decimal.

Lemma search_digits_None (cs : list string) :
  search_digits unicode_decimal cs = None <->
  existsb (is_digit unicode_decimal) cs = false.
Proof.
  induction cs as [| c cs IH]; cbn.
  - split; reflexivity.
  - destruct (is_digit unicode_decimal c); cbn;
      [split; discriminate | exact IH].
Qed.

Lemma extract_digits_None (s : string) :
  extract_digits unicode_decimal s = None <->
  has_digit unicode_decimal s = false.
Proof. apply search_digits_None. Qed.

Lemma take_digits_all (cs : list string) :
  forallb (is_digit unicode_decimal) (take_digits unicode_decimal cs) = true.
Proof.
  induction cs as [| c cs IH]; cbn; [reflexivity |].
  destruct (is_digit unicode_decimal c) eqn:E; [| reflexivity].
  cbn. rewrite E, IH. reflexivity.
Qed.

(** A run matched by [\d+] is made of digits. *)
Lemma search_digits_all (cs run : list string) :
  search_digits unicode_decimal cs = Some run ->
  forallb (is_digit unicode_decimal) run = true.
Proof.
  induction cs as [| c cs IH]; cbn; [discriminate |].
  destruct (is_digit unicode_decimal c) eqn:E; [| exact IH].
  intros H. injection H as <-. cbn. rewrite E, take_digits_all. reflexivity.
Qed.

(** [int] reads every run of digits. *)
Lemma digits_value_defined (run : list string) (acc : Z) :
  forallb (is_digit unicode_decimal) run = true ->
  exists z, digits_value unicode_decimal acc run = Some z.
Proof.
  revert acc. induction run as [| c run IH]; intros acc H; cbn.
  - exists acc. reflexivity.
  - cbn in H. apply andb_true_iff in H. destruct H as [Hc Hrun].
    unfold is_digit in Hc.
    destruct (to_decimal unicode_decimal c) as [d |]; [| discriminate].
    apply IH. exact Hrun.
Qed.

Lemma decimal_value_range (d : decimal) : (0 <= decimal_value d <= 9)%Z.
Proof. destruct d; cbn; lia. Qed.

Lemma digits_value_nonneg (run : list string) (acc z : Z) :
  digits_value unicode_decimal acc run = Some z ->
  (0 <= acc)%Z -> (0 <= z)%Z.
Proof.
  revert acc. induction run as [| c run IH]; intros acc H Hacc;
    cbn [digits_value] in H.
  - injection H as <-. exact Hacc.
  - destruct (to_decimal unicode_decimal c) as [d |]; [| discriminate].
    apply (IH _ H). pose proof (decimal_value_range d). lia.
Qed.

Lemma extracted_run_value (s : string) (run : list string) :
  extract_digits unicode_decimal s = Some run ->
  exists z, digits_value unicode_decimal 0 run = Some z /\ (0 <= z)%Z.
Proof.
  intros H. apply search_digits_all in H.
  destruct (digits_value_defined run 0 H) as [z Hz].
  exists z. split; [exact Hz |].
  apply (digits_value_nonneg run 0 z Hz). lia.
Qed.

End DigitFacts.

Lemma resolved_or_not (cols : list string) :
  unresolved cols \/
  exists cc nc dc crc,
    code_col cols = Some cc /\ name_col cols = Some nc /\
    debit_col cols = Some dc /\ credit_col cols = Some crc.
Proof.
  unfold unresolved.
  destruct (code_col cols) as [cc |]; [| tauto].
  destruct (name_col cols) as [nc |]; [| tauto].
  destruct (debit_col cols) as [dc |]; [| tauto].
  destruct (credit_col cols) as [crc |]; [| tauto].
  right. exists cc, nc, dc, crc. repeat split.
Qed.

Section NormaliserFacts.
Variable unicode_decimal : string -> option decimal.
Variable float_repr : Q -> string.
Variable parse_numeric : string -> option Q.

(** The code of a cell cannot be read exactly when its text has no digit,
    or its first run of digits exceeds the integer type. *)
Lemma row_code_Raise (c : cell) :
  (exists e, row_code unicode_decimal float_repr c = Raise e) <->
  has_digit unicode_decimal (astype_str float_repr c) = false \/
  exists run z,
    extract_digits unicode_decimal (astype_str float_repr c) = Some run /\
    digits_value unicode_decimal 0 run = Some z /\
    (int64_max < z)%Z.
Proof.
  unfold row_code, astype_int.
  destruct (extract_digits unicode_decimal (astype_str float_repr c))
    as [run |] eqn:E.
  - destruct (extracted_run_value unicode_decimal _ run E) as [z [Hz _]].
    rewrite Hz.
    destruct (Z.leb_spec z int64_max) as [Hle | Hgt].
    + split; [intros [e H]; discriminate |].
      intros [H | [run' [z' [Hrun [Hz' Hlt]]]]].
      * apply extract_digits_None in H. congruence.
      * injection Hrun as <-. rewrite Hz in Hz'. injection Hz' as <-. lia.
    + split; [| intros _; eexists; reflexivity].
      intros _. right. exists run, z. repeat split; assumption.
  - split; [| intros _; eexists; reflexivity].
    intros _. left. apply extract_digits_None. exact E.
Qed.

Lemma normalise_row_Raise (cc nc dc crc : string) (row : string -> cell) :
  (exists e, normalise_row unicode_decimal float_repr parse_numeric cc nc dc crc row = Raise e)
  <-> (exists e, row_code unicode_decimal float_repr (row cc) = Raise e).
Proof.
  unfold normalise_row.
  destruct (row_code unicode_decimal float_repr (row cc)) as [z | e]; cbn [bind].
  - split; intros [e H]; discriminate.
  - split; intros _; exists e; reflexivity.
Qed.

Lemma normalise_row_Ok (cc nc dc crc : string) (row : string -> cell)
    (r : AccountRecord) :
  normalise_row unicode_decimal float_repr parse_numeric cc nc dc crc row = Ok r <->
  exists z,
    row_code unicode_decimal float_repr (row cc) = Ok z /\
    r = with_balance (z, astype_str float_repr (row nc),
                      fillna0 (to_numeric parse_numeric (row dc)),
                      fillna0 (to_numeric parse_numeric (row crc))).
Proof.
  unfold normalise_row.
  destruct (row_code unicode_decimal float_repr (row cc)) as [z | e]; cbn [bind].
  - split.
    + intros H. injection H as <-. exists z. split; reflexivity.
    + intros [z' [Hz ->]]. injection Hz as <-. reflexivity.
  - split; [discriminate | intros [z [H _]]; discriminate].
Qed.

Lemma normalise_resolved (df : RawFrame) (cc nc dc crc : string) :
  code_col (columns df) = Some cc ->
  name_col (columns df) = Some nc ->
  debit_col (columns df) = Some dc ->
  credit_col (columns df) = Some crc ->
  normalise_tb_columns unicode_decimal float_repr parse_numeric df
  = mapM (normalise_row unicode_decimal float_repr parse_numeric cc nc dc crc) (rows df).
Proof.
  intros Hc Hn Hd Hcr. unfold normalise_tb_columns.
  rewrite Hc, Hn, Hd, Hcr. reflexivity.
Qed.

Lemma normalise_unresolved (df : RawFrame) :
  unresolved (columns df) ->
  normalise_tb_columns unicode_decimal float_repr parse_numeric df
  = Raise (ValueError missing_columns_msg).
Proof.
  unfold unresolved, normalise_tb_columns.
  intros [H | [H | [H | H]]]; rewrite H;
    repeat match goal with
           | |- context [match ?o with Some _ => _ | None => _ end] =>
               destruct o
           end; reflexivity.
Qed.

End NormaliserFacts.

Lemma mapM_all_Ok {A B : Type} (f : A -> result B) (l : list A) :
  (forall a, In a l -> exists b, f a = Ok b) ->
  exists out, mapM f l = Ok out /\ length out = length l.
Proof.
  intros Hall. destruct (mapM_total f l) as [Hraise | Hok]; [| exact Hok].
  apply mapM_Raise in Hraise. destruct Hraise as [a [Hin [e He]]].
  destruct (Hall a Hin) as [b Hb]. congruence.
Qed.

Lemma Forall2_Forall_r {A B : Type} (R : A -> B -> Prop) (P : B -> Prop)
    (l : list A) (out : list B) :
  (forall a b, R a b -> P b) -> Forall2 R l out -> Forall P out.
Proof.
  intros HRP H. induction H; constructor; eauto.
Qed.

(** ** Failure of the normaliser *)

(** C4, as the code has it.  The normaliser raises, for the whole input
    and with no partial result, if and only if one of the four fields is
    resolved to no column, or some cell of the code column has no decimal
    digit in its text, or the first run of digits of some code cell
    denotes an integer above the largest 64-bit signed integer; in every
    other case it returns one record per row of the table.  A decimal
    digit is a digit of any script, as the regular expression and the
    integer conversion of the source take it, whatever the Unicode
    database says of the characters outside the ASCII range. *)
Theorem normalise_fails_iff (unicode_decimal : string -> option decimal)
    (float_repr : Q -> string)
    (parse_numeric : string -> option Q) (df : RawFrame) :
  ((exists e, normalise_tb_columns unicode_decimal float_repr parse_numeric df = Raise e) <->
   (unresolved (columns df) \/
    exists cc row,
      code_col (columns df) = Some cc /\ In row (rows df) /\
      (has_digit unicode_decimal (astype_str float_repr (row cc)) = false \/
       exists run z,
         extract_digits unicode_decimal (astype_str float_repr (row cc))
         = Some run /\
         digits_value unicode_decimal 0 run = Some z /\
         (int64_max < z)%Z))) /\
  ((exists e, normalise_tb_columns unicode_decimal float_repr parse_numeric df = Raise e) \/
   (exists out,
      normalise_tb_columns unicode_decimal float_repr parse_numeric df = Ok out /\
      length out = length (rows df))).
Proof.
  destruct (resolved_or_not (columns df))
    as [Hun | [cc [nc [dc [crc [Hc [Hn [Hd Hcr]]]]]]]].
  - rewrite (normalise_unresolved unicode_decimal float_repr parse_numeric df Hun).
    split; [| left; eexists; reflexivity].
    split; [intros _; left; exact Hun | intros _; eexists; reflexivity].
  - rewrite (normalise_resolved unicode_decimal float_repr parse_numeric df cc nc dc crc
               Hc Hn Hd Hcr).
    split; [| apply mapM_total].
    etransitivity; [apply mapM_Raise |]. split.
    + intros [row [Hin Hrow]]. right. exists cc, row.
      split; [exact Hc |]. split; [exact Hin |].
      apply normalise_row_Raise in Hrow.
      apply row_code_Raise in Hrow. exact Hrow.
    + intros [Hun | [cc' [row [Hc' [Hin Hrow]]]]].
      * unfold unresolved in Hun. rewrite Hc, Hn, Hd, Hcr in Hun.
        destruct Hun as [H | [H | [H | H]]]; discriminate.
      * rewrite Hc in Hc'. injection Hc' as <-.
        exists row. split; [exact Hin |].
        apply normalise_row_Raise. apply row_code_Raise. exact Hrow.
Qed.

(** C4, as stated, fails on the code: a table whose four headers resolve
    and whose only code cell is a run of twenty digits is not normalised;
    the conversion of the code to the integer type raises. *)
Lemma long_code_not_normalised :
  normalise_tb_columns example_unicode_decimal example_float_repr example_parse_numeric long_code_table
  = Raise OverflowError /\
  ~ unresolved (columns long_code_table) /\
  code_col (columns long_code_table) = Some "Code" /\
  Forall (fun row =>
            has_digit example_unicode_decimal
              (astype_str example_float_repr (row "Code")) = true)
         (rows long_code_table).
Proof.
  split; [vm_compute; reflexivity |].
  split.
  - intros [H | [H | [H | H]]]; vm_compute in H; discriminate.
  - split; [reflexivity |].
    repeat constructor.
Qed.

(** Digits of another script are digits: with a Unicode database that
    knows the Arabic-Indic digits, a code written with them, or with a
    mixture of them and ASCII digits, is read as 4000; a superscript two
    is no decimal digit. *)
Example codes_in_other_scripts :
  row_code example_unicode_decimal example_float_repr (CText "٤٠٠٠")
  = Ok 4000%Z /\
  row_code example_unicode_decimal example_float_repr (CText "N4٠٠٠-7")
  = Ok 4000%Z /\
  (exists msg,
     row_code example_unicode_decimal example_float_repr (CText "²")
     = Raise (ValueError msg)).
Proof.
  split; [vm_compute; reflexivity |].
  split; [vm_compute; reflexivity |].
  eexists. vm_compute. reflexivity.
Qed.

(** ** Lenient amounts *)

(** C6.  When the four headers resolve and every code cell can be read,
    the normaliser returns one record per row, whatever the debit and
    credit cells hold: a debit or credit cell that is not numeric becomes
    0.0 in its record, and a numeric one keeps its value. *)
Theorem lenient_amounts (unicode_decimal : string -> option decimal)
    (float_repr : Q -> string)
    (parse_numeric : string -> option Q) (df : RawFrame)
    (cc nc dc crc : string) :
  code_col (columns df) = Some cc ->
  name_col (columns df) = Some nc ->
  debit_col (columns df) = Some dc ->
  credit_col (columns df) = Some crc ->
  (forall row, In row (rows df) ->
               exists z, row_code unicode_decimal float_repr (row cc) = Ok z) ->
  exists out,
    normalise_tb_columns unicode_decimal float_repr parse_numeric df = Ok out /\
    Forall2 (fun row r =>
               (to_numeric parse_numeric (row dc) = None -> debit r = 0.0) /\
               (to_numeric parse_numeric (row crc) = None -> credit r = 0.0) /\
               (forall q, to_numeric parse_numeric (row dc) = Some q ->
                          debit r = q) /\
               (forall q, to_numeric parse_numeric (row crc) = Some q ->
                          credit r = q))
            (rows df) out.
Proof.
  intros Hc Hn Hd Hcr Hcodes.
  rewrite (normalise_resolved unicode_decimal float_repr parse_numeric df cc nc dc crc
             Hc Hn Hd Hcr).
  destruct (mapM_all_Ok (normalise_row unicode_decimal float_repr parse_numeric cc nc dc crc)
              (rows df)) as [out [Hout _]].
  { intros row Hin. destruct (Hcodes row Hin) as [z Hz].
    eexists. apply normalise_row_Ok. exists z. split; [exact Hz | reflexivity]. }
  exists out. split; [exact Hout |].
  apply mapM_Forall2 in Hout.
  revert Hout. apply Forall2_impl.
  intros row r Hr. apply normalise_row_Ok in Hr.
  destruct Hr as [z [_ ->]]. cbn [with_balance debit credit].
  repeat split; intros; 
    match goal with H : _ = _ |- _ => rewrite H end; reflexivity.
Qed.

Lemma lenient_amounts_witness :
  exists out,
    normalise_tb_columns example_unicode_decimal example_float_repr example_parse_numeric lenient_table
    = Ok out /\
    Forall2 (fun row r =>
               (to_numeric example_parse_numeric (row "Debit") = None ->
                debit r = 0.0) /\
               (to_numeric example_parse_numeric (row "Credit") = None ->
                credit r = 0.0) /\
               (forall q, to_numeric example_parse_numeric (row "Debit") = Some q ->
                          debit r = q) /\
               (forall q, to_numeric example_parse_numeric (row "Credit") = Some q ->
                          credit r = q))
            (rows lenient_table) out.
Proof.
  apply (lenient_amounts example_unicode_decimal example_float_repr example_parse_numeric lenient_table
           "N/C" "Account Name" "Debit" "Credit");
    try reflexivity.
  intros row [<- | [<- | []]]; eexists; vm_compute; reflexivity.
Defined.

(** ** The balance column *)

(** C7.  In every frame the program builds, be it the demo frame or a
    frame returned by the normaliser, each record has
    [balance = debit - credit]: the column is computed from the other two
    and from nothing else. *)
Theorem balance_is_debit_minus_credit (unicode_decimal : string -> option decimal)
    (float_repr : Q -> string)
    (parse_numeric : string -> option Q) (out : Frame) :
  produced unicode_decimal float_repr parse_numeric out -> Forall balance_invariant out.
Proof.
  intros [| df out' Hout].
  - unfold load_demo_trial_balance. apply Forall_forall.
    intros r Hin. apply in_map_iff in Hin.
    destruct Hin as [[[[c n] d] cr] [<- _]]. reflexivity.
  - destruct (resolved_or_not (columns df))
      as [Hun | [cc [nc [dc [crc [Hc [Hn [Hd Hcr]]]]]]]].
    + rewrite (normalise_unresolved unicode_decimal float_repr parse_numeric df Hun) in Hout.
      discriminate.
    + rewrite (normalise_resolved unicode_decimal float_repr parse_numeric df cc nc dc crc
                 Hc Hn Hd Hcr) in Hout.
      apply mapM_Forall2 in Hout.
      revert Hout. apply Forall2_Forall_r.
      intros row r Hr. apply normalise_row_Ok in Hr.
      destruct Hr as [z [_ ->]]. reflexivity.
Qed.

Lemma balance_is_debit_minus_credit_witness :
  exists out,
    normalise_tb_columns example_unicode_decimal example_float_repr example_parse_numeric lenient_table
    = Ok out /\
    Forall balance_invariant out.
Proof.
  eexists. split; [vm_compute; reflexivity |].
  apply (balance_is_debit_minus_credit example_unicode_decimal example_float_repr
           example_parse_numeric).
  apply (produced_upload example_unicode_decimal example_float_repr example_parse_numeric
           lenient_table).
  vm_compute. reflexivity.
Defined.

(** ** A table without rows *)

(** C10.  A table whose four headers resolve and that has no data row is
    normalised to the empty frame; on the empty frame the engine returns:
    net sales, gross profit, operating profit, profit before tax, current
    assets, current liabilities and working capital are 0, and the three
    margins, the current ratio, the quick ratio, receivables days and
    payables days are [None]. *)
Theorem empty_table (unicode_decimal : string -> option decimal)
    (float_repr : Q -> string)
    (parse_numeric : string -> option Q) (df : RawFrame)
    (cc nc dc crc : string) :
  code_col (columns df) = Some cc ->
  name_col (columns df) = Some nc ->
  debit_col (columns df) = Some dc ->
  credit_col (columns df) = Some crc ->
  rows df = [] ->
  normalise_tb_columns unicode_decimal float_repr parse_numeric df = Ok [] /\
  exists breakdown,
    calculate_ratios [] =
    Ok ([("Net sales (£)", Num 0);
         ("Gross profit (£)", Num 0);
         ("Gross margin (%)", PyNone);
         ("Operating profit (£)", Num 0);
         ("Operating margin (%)", PyNone);
         ("Profit before tax (£)", Num 0);
         ("Net margin (PBT, %)", PyNone);
         ("Current assets (£)", Num 0);
         ("Current liabilities (£)", Num 0);
         ("Working capital (£)", Num 0);
         ("Current ratio", PyNone);
         ("Quick ratio", PyNone);
         ("Receivables days", PyNone);
         ("Payables days", PyNone)],
        breakdown).
Proof.
  intros Hc Hn Hd Hcr Hrows. split.
  - rewrite (normalise_resolved unicode_decimal float_repr parse_numeric df cc nc dc crc
               Hc Hn Hd Hcr).
    rewrite Hrows. reflexivity.
  - eexists. reflexivity.
Qed.

Lemma empty_table_witness :
  normalise_tb_columns example_unicode_decimal example_float_repr example_parse_numeric
    header_only_table = Ok [] /\
  ratio "Net sales (£)" [] = Some (Num 0) /\
  ratio "Current ratio" [] = Some PyNone.
Proof.
  destruct (empty_table example_unicode_decimal example_float_repr example_parse_numeric
              header_only_table "N/C" "Account Name" "Debit" "Credit"
              eq_refl eq_refl eq_refl eq_refl eq_refl) as [Hn [b Hb]].
  split; [exact Hn |].
  unfold ratio. rewrite Hb. split; reflexivity.
Defined.

(** ** Further properties of the ratio engine *)

Lemma ratio_eq (key : string) (df : Frame) (ratios : Ratios)
    (breakdown : Breakdown) :
  calculate_ratios df = Ok (ratios, breakdown) ->
  ratio key df = get key ratios.
Proof. intros H. unfold ratio. rewrite H. reflexivity. Qed.

Lemma amount_eq (key : string) (df : Frame) (ratios : Ratios)
    (breakdown : Breakdown) :
  calculate_ratios df = Ok (ratios, breakdown) ->
  amount key df = get key breakdown.
Proof. intros H. unfold amount. rewrite H. reflexivity. Qed.

(** X1.  The engine never divides by zero: on every frame it returns the
    fourteen entries of the ratios, under their keys and in their order,
    and the seven rows of the breakdown. *)
Theorem engine_always_returns (df : Frame) :
  exists ratios breakdown,
    calculate_ratios df = Ok (ratios, breakdown) /\
    map fst ratios = ratio_keys /\
    map fst breakdown = breakdown_categories.
Proof.
  rewrite calculate_ratios_returns.
  do 2 eexists. split; [reflexivity |]. split; reflexivity.
Qed.

Lemma guard_None_iff (den v : Q) : guard den v = None <-> den == 0.
Proof.
  unfold guard. destruct (truthy den) eqn:E.
  - apply truthy_true_iff in E. split; [discriminate | tauto].
  - apply truthy_false_iff in E. tauto.
Qed.

Lemma of_option_PyNone (o : option Q) :
  Some (of_option o) = Some PyNone <-> o = None.
Proof.
  destruct o; cbn; split; intros H; try discriminate; reflexivity.
Qed.

Ltac ratio_entry :=
  unfold ratio; rewrite calculate_ratios_returns;
  cbn [get String.eqb Ascii.eqb Bool.eqb].

(** X2.  Each of the seven quotients is [None] exactly when its denominator is
    zero: net sales for the three margins and receivables days, current
    liabilities for the current and quick ratios, cost of sales for
    payables days. *)
Theorem undefined_iff_zero_denominator (df : Frame) :
  (ratio "Gross margin (%)" df = Some PyNone <-> net_sales df == 0) /\
  (ratio "Operating margin (%)" df = Some PyNone <-> net_sales df == 0) /\
  (ratio "Net margin (PBT, %)" df = Some PyNone <-> net_sales df == 0) /\
  (ratio "Receivables days" df = Some PyNone <-> net_sales df == 0) /\
  (ratio "Current ratio" df = Some PyNone <-> current_liabilities df == 0) /\
  (ratio "Quick ratio" df = Some PyNone <-> current_liabilities df == 0) /\
  (ratio "Payables days" df = Some PyNone <-> cogs df == 0).
Proof.
  repeat split; ratio_entry;
    rewrite ?of_option_PyNone, ?guard_None_iff; try tauto;
    intros H; apply of_option_PyNone; apply guard_None_iff; exact H.
Qed.

(** *** The engine reads the code and the balance of mapped rows only *)

Lemma masked_balances_keys (p : Z -> bool) (df : Frame) :
  (forall c, p c = true -> isin category_codes c = true) ->
  map balance (loc (fun r => p (code r)) df)
  = map snd (filter (fun k => p (fst k)) (map key_of (filter mapped df))).
Proof.
  intros Hp. unfold loc. induction df as [| r df IH]; [reflexivity |].
  cbn [filter]. unfold mapped at 1.
  destruct (p (code r)) eqn:E.
  - rewrite (Hp _ E). cbn [map filter key_of fst snd]. rewrite E.
    cbn [map snd]. f_equal. exact IH.
  - destruct (isin category_codes (code r)); [| exact IH].
    cbn [map filter key_of fst]. rewrite E. exact IH.
Qed.

Lemma masked_sum_agree (p : Z -> bool) (df df' : Frame) :
  (forall c, p c = true -> isin category_codes c = true) ->
  map key_of (filter mapped df) = map key_of (filter mapped df') ->
  balance_sum (loc (fun r => p (code r)) df)
  = balance_sum (loc (fun r => p (code r)) df').
Proof.
  intros Hp H. unfold balance_sum.
  rewrite !masked_balances_keys by exact Hp. rewrite H. reflexivity.
Qed.

Lemma isin_incl_true (small big : list Z) (c : Z) :
  incl small big -> isin small c = true -> isin big c = true.
Proof.
  intros Hincl H. destruct (isin big c) eqn:E; [reflexivity |].
  rewrite (isin_false_incl small big c Hincl E) in H. discriminate.
Qed.

Lemma sum_isin_agree (codes : list Z) (df df' : Frame) :
  incl codes category_codes ->
  map key_of (filter mapped df) = map key_of (filter mapped df') ->
  sum_isin codes df = sum_isin codes df'.
Proof.
  intros Hincl H. unfold sum_isin.
  apply (masked_sum_agree (isin codes)); [| exact H].
  intros c. apply isin_incl_true. exact Hincl.
Qed.

Lemma bal_agree (k : Z) (df df' : Frame) :
  In k category_codes ->
  map key_of (filter mapped df) = map key_of (filter mapped df') ->
  bal df k = bal df' k.
Proof.
  intros Hk H. unfold bal.
  apply (masked_sum_agree (fun c => Z.eqb c k)); [| exact H].
  intros c Hc. apply Z.eqb_eq in Hc. subst c.
  unfold isin. apply existsb_exists. exists k.
  split; [exact Hk | apply Z.eqb_refl].
Qed.

(** X3.  The result of the engine is a function of the codes and balances of
    the rows whose code is in the category map, taken in order: names,
    debits, credits and all rows of other codes are never read. *)
Theorem engine_reads_code_and_balance (df df' : Frame) :
  map key_of (filter mapped df) = map key_of (filter mapped df') ->
  calculate_ratios df = calculate_ratios df'.
Proof.
  intros H.
  unfold calculate_ratios, gross_margin_pct, operating_margin_pct,
    net_margin_pct, current_ratio, quick_ratio, receivables_days,
    payables_days, profit_before_tax, operating_profit, working_capital,
    quick_assets, gross_profit, net_sales, operating_expenses, sales,
    discounts, cogs, expenses, ssp_smp_recovery, misc_income, finance_cost,
    current_assets, current_liabilities, debtors, creditors.
  rewrite !(sum_isin_agree sales_codes df df') by (in_category_map || exact H).
  rewrite !(sum_isin_agree cogs_codes df df') by (in_category_map || exact H).
  rewrite !(sum_isin_agree expense_codes df df')
    by (in_category_map || exact H).
  rewrite !(sum_isin_agree [7010; 7011]%Z df df')
    by (in_category_map || exact H).
  rewrite !(sum_isin_agree current_asset_codes df df')
    by (in_category_map || exact H).
  rewrite !(sum_isin_agree current_liability_codes df df')
    by (in_category_map || exact H).
  rewrite !(bal_agree 4009 df df') by (in_category_map || exact H).
  rewrite !(bal_agree 4900 df df') by (in_category_map || exact H).
  rewrite !(bal_agree 7903 df df') by (in_category_map || exact H).
  rewrite !(bal_agree 1103 df df') by (in_category_map || exact H).
  rewrite !(bal_agree 1100 df df') by (in_category_map || exact H).
  rewrite !(bal_agree 2100 df df') by (in_category_map || exact H).
  reflexivity.
Qed.

Lemma engine_reads_code_and_balance_witness :
  calculate_ratios
    [mkAccount 4000 "Sales North" 0 1000 (-1000);
     mkAccount 9999 "Mispostings Account" 205 0 205;
     mkAccount 5000 "Materials Purchased" 400 0 400]
  = calculate_ratios
      [mkAccount 4000 "Turnover" 500 1500 (-1000);
       mkAccount 5000 "" 0 0 400;
       mkAccount 21 "Plant/Machinery Depreciation" 515 0 515].
Proof.
  apply engine_reads_code_and_balance. reflexivity.
Defined.

(** *** Sums of balances *)

Lemma fold_left_Qplus_acc (l : list Q) (a : Q) :
  fold_left Qplus l a == a + fold_left Qplus l 0.
Proof.
  revert a. induction l as [| x l IH]; intros a; cbn [fold_left].
  - ring.
  - rewrite (IH (a + x)), (IH (0 + x)). ring.
Qed.

Lemma masked_sum_cons (mask : AccountRecord -> bool) (r : AccountRecord)
    (df : Frame) :
  balance_sum (loc mask (r :: df))
  == (if mask r then balance r else 0) + balance_sum (loc mask df).
Proof.
  unfold balance_sum, loc. cbn [filter].
  destruct (mask r).
  - cbn [map fold_left]. rewrite fold_left_Qplus_acc. ring.
  - ring.
Qed.

Section Scaled.
Variable k : Q.
Variables df df' : Frame.
Hypothesis sums_scaled :
  forall p : Z -> bool,
    balance_sum (loc (fun r => p (code r)) df')
    == k * balance_sum (loc (fun r => p (code r)) df).

Lemma sum_isin_scaled (codes : list Z) :
  sum_isin codes df' == k * sum_isin codes df.
Proof. exact (sums_scaled (isin codes)). Qed.

Lemma bal_scaled (c : Z) : bal df' c == k * bal df c.
Proof. exact (sums_scaled (fun c' => Z.eqb c' c)). Qed.

Lemma net_sales_scaled : net_sales df' == k * net_sales df.
Proof.
  unfold net_sales, sales, discounts.
  rewrite sum_isin_scaled, bal_scaled. ring.
Qed.

Lemma cogs_scaled : cogs df' == k * cogs df.
Proof. unfold cogs. apply sum_isin_scaled. Qed.

Lemma gross_profit_scaled : gross_profit df' == k * gross_profit df.
Proof.
  unfold gross_profit. rewrite net_sales_scaled, cogs_scaled. ring.
Qed.

Lemma operating_expenses_scaled :
  operating_expenses df' == k * operating_expenses df.
Proof.
  unfold operating_expenses, expenses, ssp_smp_recovery.
  rewrite !sum_isin_scaled. ring.
Qed.

Lemma operating_profit_scaled :
  operating_profit df' == k * operating_profit df.
Proof.
  unfold operating_profit, misc_income.
  rewrite gross_profit_scaled, operating_expenses_scaled, bal_scaled. ring.
Qed.

Lemma finance_cost_scaled : finance_cost df' == k * finance_cost df.
Proof. unfold finance_cost. apply bal_scaled. Qed.

Lemma profit_before_tax_scaled :
  profit_before_tax df' == k * profit_before_tax df.
Proof.
  unfold profit_before_tax.
  rewrite operating_profit_scaled, finance_cost_scaled. ring.
Qed.

Lemma current_assets_scaled : current_assets df' == k * current_assets df.
Proof. unfold current_assets. apply sum_isin_scaled. Qed.

Lemma current_liabilities_scaled :
  current_liabilities df' == k * current_liabilities df.
Proof. unfold current_liabilities. rewrite sum_isin_scaled. ring. Qed.

Lemma working_capital_scaled :
  working_capital df' == k * working_capital df.
Proof.
  unfold working_capital.
  rewrite current_assets_scaled, current_liabilities_scaled. ring.
Qed.

End Scaled.

(** *** Liquidity *)







(** ** Further properties of the normaliser *)

(** *** An integer in the code column *)

Lemma characters_plain (s : string) :
  forallb (fun a => negb (is_continuation a)) (list_ascii_of_string s)
  = true ->
  characters s
  = map (fun a => String a EmptyString) (list_ascii_of_string s).
Proof.
  induction s as [| a s IH];
    cbn [list_ascii_of_string forallb map characters]; [reflexivity |].
  intros H. apply andb_true_iff in H. destruct H as [_ Hs].
  rewrite (IH Hs). revert Hs.
  destruct (list_ascii_of_string s) as [| b l]; [reflexivity |].
  cbn [map forallb continues]. intros Hs.
  apply andb_true_iff in Hs. destruct Hs as [Hb _].
  apply negb_true_iff in Hb. rewrite Hb. reflexivity.
Qed.

Lemma uint_plain (d : Decimal.uint) :
  forallb (fun a => negb (is_continuation a))
          (list_ascii_of_string (NilEmpty.string_of_uint d)) = true.
Proof. induction d; cbn; auto. Qed.

Ltac ascii_digit :=
  repeat match goal with
         | |- context [to_decimal ?u (String ?a EmptyString)] =>
             let v := eval vm_compute in (to_decimal u (String a EmptyString)) in
             change (to_decimal u (String a EmptyString)) with v
         end.

Lemma uint_all_digits (unicode_decimal : string -> option decimal)
    (d : Decimal.uint) :
  forallb (is_digit unicode_decimal)
          (map (fun a => String a EmptyString)
               (list_ascii_of_string (NilEmpty.string_of_uint d))) = true.
Proof.
  induction d;
    cbn [NilEmpty.string_of_uint list_ascii_of_string map forallb];
    [reflexivity | ..];
    unfold is_digit at 1; ascii_digit; cbn iota; exact IHd.
Qed.

Lemma uint_value_acc (unicode_decimal : string -> option decimal)
    (d : Decimal.uint) (acc : positive) :
  digits_value unicode_decimal (Z.pos acc)
    (map (fun a => String a EmptyString)
         (list_ascii_of_string (NilEmpty.string_of_uint d)))
  = Some (Z.pos (Pos.of_uint_acc d acc)).
Proof.
  revert acc.
  induction d as [| d IH | d IH | d IH | d IH | d IH | d IH | d IH | d IH
                 | d IH | d IH]; intros acc;
    cbn [NilEmpty.string_of_uint list_ascii_of_string map digits_value
         Pos.of_uint_acc];
    [reflexivity | ..];
    ascii_digit; cbn iota; cbn [decimal_value];
    match goal with
    | |- digits_value _ ?x _ = Some (Z.pos (Pos.of_uint_acc _ ?a)) =>
        replace x with (Z.pos a) by lia; apply IH
    end.
Qed.

Lemma uint_value (unicode_decimal : string -> option decimal)
    (d : Decimal.uint) :
  digits_value unicode_decimal 0
    (map (fun a => String a EmptyString)
         (list_ascii_of_string (NilEmpty.string_of_uint d)))
  = Some (Z.of_N (Pos.of_uint d)).
Proof.
  induction d as [| d IH | d IH | d IH | d IH | d IH | d IH | d IH | d IH
                 | d IH | d IH];
    cbn [NilEmpty.string_of_uint list_ascii_of_string map digits_value
         Pos.of_uint];
    [reflexivity | ..];
    ascii_digit; cbn iota; cbn [decimal_value];
    [exact IH | apply (uint_value_acc unicode_decimal d) ..].
Qed.

Lemma take_digits_whole (unicode_decimal : string -> option decimal)
    (cs : list string) :
  forallb (is_digit unicode_decimal) cs = true ->
  take_digits unicode_decimal cs = cs.
Proof.
  induction cs as [| c cs IH]; cbn; [reflexivity |].
  intros H. apply andb_true_iff in H. destruct H as [Hc Hcs].
  rewrite Hc, (IH Hcs). reflexivity.
Qed.

Lemma search_digits_whole (unicode_decimal : string -> option decimal)
    (cs : list string) :
  cs <> [] ->
  forallb (is_digit unicode_decimal) cs = true ->
  search_digits unicode_decimal cs = Some cs.
Proof.
  destruct cs as [| c cs]; [congruence |]. intros _ H.
  cbn in *. apply andb_true_iff in H. destruct H as [Hc Hcs].
  rewrite Hc, (take_digits_whole unicode_decimal cs Hcs). reflexivity.
Qed.

Lemma string_of_pos (p : positive) :
  NilZero.string_of_uint (Pos.to_uint p)
  = NilEmpty.string_of_uint (Pos.to_uint p) /\
  NilEmpty.string_of_uint (Pos.to_uint p) <> EmptyString.
Proof.
  pose proof (Unsigned.to_uint_nonnil p) as H.
  destruct (Pos.to_uint p); [congruence | split; [reflexivity | discriminate] ..].
Qed.

(** The code read from the decimal text of a positive number. *)
Lemma code_of_pos (unicode_decimal : string -> option decimal)
    (p : positive) :
  characters (NilEmpty.string_of_uint (Pos.to_uint p))
  = map (fun a => String a EmptyString)
        (list_ascii_of_string (NilEmpty.string_of_uint (Pos.to_uint p))) /\
  astype_int unicode_decimal
    (search_digits unicode_decimal
       (map (fun a => String a EmptyString)
            (list_ascii_of_string (NilEmpty.string_of_uint (Pos.to_uint p)))))
  = if (Z.pos p <=? int64_max)%Z then Ok (Z.pos p) else Raise OverflowError.
Proof.
  split; [apply characters_plain, uint_plain |].
  rewrite search_digits_whole.
  - unfold astype_int. rewrite uint_value, Unsigned.of_to. reflexivity.
  - destruct (string_of_pos p) as [_ Hne].
    destruct (NilEmpty.string_of_uint (Pos.to_uint p));
      [congruence | discriminate].
  - apply uint_all_digits.
Qed.

(** X11.  An integer cell in the code column gives its absolute value as the
    code (the text of a negative integer starts with a sign, which is not
    a digit), provided the value fits the integer type. *)
Theorem integer_code_cell (unicode_decimal : string -> option decimal)
    (float_repr : Q -> string) (z : Z) :
  row_code unicode_decimal float_repr (CInt z) =
  if (Z.abs z <=? int64_max)%Z then Ok (Z.abs z) else Raise OverflowError.
Proof.
  unfold row_code, astype_str, extract_digits.
  destruct z as [| p | p]; cbn [Z.to_int NilZero.string_of_int Z.abs].
  - reflexivity.
  - rewrite (proj1 (string_of_pos p)).
    destruct (code_of_pos unicode_decimal p) as [-> ->]. reflexivity.
  - rewrite (proj1 (string_of_pos p)).
    rewrite characters_plain.
    + cbn [list_ascii_of_string map search_digits].
      unfold is_digit at 1. ascii_digit. cbn iota.
      destruct (code_of_pos unicode_decimal p) as [_ ->]. reflexivity.
    + cbn [list_ascii_of_string forallb]. apply uint_plain.
Qed.

(** *** The codes of normalised records *)

Lemma row_code_range (unicode_decimal : string -> option decimal)
    (float_repr : Q -> string) (c : cell) (z : Z) :
  row_code unicode_decimal float_repr c = Ok z -> (0 <= z <= int64_max)%Z.
Proof.
  unfold row_code, astype_int.
  destruct (extract_digits unicode_decimal (astype_str float_repr c))
    as [run |] eqn:E; [| discriminate].
  destruct (extracted_run_value unicode_decimal _ run E) as [z' [Hz Hnn]].
  rewrite Hz.
  destruct (Z.leb_spec z' int64_max) as [Hle | Hgt]; [| discriminate].
  intros H. injection H as <-. split; assumption.
Qed.

(** X12.  Every record the normaliser returns has a code between 0 and the
    largest value of the integer type: no negative code comes out of it. *)
Theorem normalised_codes_in_range (unicode_decimal : string -> option decimal)
    (float_repr : Q -> string)
    (parse_numeric : string -> option Q) (df : RawFrame) (out : Frame) :
  normalise_tb_columns unicode_decimal float_repr parse_numeric df = Ok out ->
  Forall (fun r => (0 <= code r <= int64_max)%Z) out.
Proof.
  intros Hout.
  destruct (resolved_or_not (columns df))
    as [Hun | [cc [nc [dc [crc [Hc [Hn [Hd Hcr]]]]]]]].
  - rewrite (normalise_unresolved unicode_decimal float_repr parse_numeric df Hun) in Hout.
    discriminate.
  - rewrite (normalise_resolved unicode_decimal float_repr parse_numeric df cc nc dc crc
               Hc Hn Hd Hcr) in Hout.
    apply mapM_Forall2 in Hout. revert Hout. apply Forall2_Forall_r.
    intros row r Hr. apply normalise_row_Ok in Hr.
    destruct Hr as [z [Hz ->]]. cbn [with_balance code].
    exact (row_code_range unicode_decimal float_repr (row cc) z Hz).
Qed.

Lemma normalised_codes_in_range_witness :
  exists out,
    normalise_tb_columns example_unicode_decimal example_float_repr example_parse_numeric
      signed_amount_table = Ok out /\
    Forall (fun r => (0 <= code r <= int64_max)%Z) out.
Proof.
  eexists. split; [vm_compute; reflexivity |].
  apply (normalised_codes_in_range example_unicode_decimal example_float_repr example_parse_numeric
           signed_amount_table).
  vm_compute. reflexivity.
Defined.

(** *** A row without a code *)

(** X13.  A single row whose code cell is missing makes the normaliser raise
    for the whole table (the text of a missing cell is "nan", which has
    no digit): no record is returned, not even for the rows before it. *)
Theorem missing_code_cell_aborts (unicode_decimal : string -> option decimal)
    (float_repr : Q -> string)
    (parse_numeric : string -> option Q) (df : RawFrame) (cc : string)
    (row : string -> cell) :
  code_col (columns df) = Some cc ->
  In row (rows df) ->
  row cc = CMissing ->
  exists e, normalise_tb_columns unicode_decimal float_repr parse_numeric df = Raise e.
Proof.
  intros Hcc Hin Hcell.
  destruct (resolved_or_not (columns df))
    as [Hun | [cc' [nc [dc [crc [Hc [Hn [Hd Hcr]]]]]]]].
  - rewrite (normalise_unresolved unicode_decimal float_repr parse_numeric df Hun).
    eexists. reflexivity.
  - rewrite (normalise_resolved unicode_decimal float_repr parse_numeric df cc' nc dc crc
               Hc Hn Hd Hcr).
    apply mapM_Raise. exists row. split; [exact Hin |].
    apply normalise_row_Raise. rewrite Hc in Hcc. injection Hcc as ->.
    unfold row_code. rewrite Hcell. eexists. reflexivity.
Qed.

Lemma missing_code_cell_aborts_witness :
  exists e,
    normalise_tb_columns example_unicode_decimal example_float_repr example_parse_numeric
      totals_row_table = Raise e.
Proof.
  apply (missing_code_cell_aborts example_unicode_decimal example_float_repr example_parse_numeric
           totals_row_table "N/C"
           (row_of [("Name", CText "Totals");
                    ("Debit", CFloat 1000); ("Credit", CFloat 1000)])).
  - reflexivity.
  - right. left. reflexivity.
  - reflexivity.
Defined.

(** *** Resolved headers *)

Lemma find_col_In (cols : list string) (kw c : string) :
  find_col cols kw = Some c -> In c cols.
Proof.
  intros H. apply find_col_Some in H.
  destruct H as [pre [post [-> _]]].
  apply in_or_app. right. left. reflexivity.
Qed.

Lemma code_col_In (cols : list string) (c : string) :
  code_col cols = Some c -> In c cols.
Proof.
  rewrite code_col_priority.
  destruct (find_col cols "code") as [c1 |] eqn:E1.
  - intros H. injection H as <-. exact (find_col_In cols "code" c1 E1).
  - destruct (find_col cols "n/c") as [c2 |] eqn:E2.
    + intros H. injection H as <-. exact (find_col_In cols "n/c" c2 E2).
    + apply find_col_In.
Qed.

(** X14.  A field is only ever resolved to a header of the table itself, so
    the four column selections of the normaliser always find their
    column. *)
Theorem resolved_headers_are_columns (cols : list string) (c : string) :
  code_col cols = Some c \/ name_col cols = Some c \/
  debit_col cols = Some c \/ credit_col cols = Some c ->
  In c cols.
Proof.
  intros [H | [H | [H | H]]].
  - exact (code_col_In cols c H).
  - exact (find_col_In cols "name" c H).
  - exact (find_col_In cols "debit" c H).
  - exact (find_col_In cols "credit" c H).
Qed.

Lemma resolved_headers_are_columns_witness :
  In "Debit/(Credit)" (columns signed_amount_table).
Proof.
  apply (resolved_headers_are_columns (columns signed_amount_table)).
  right. right. right. reflexivity.
Defined.

(** *** One column for both amounts *)

Lemma zero_balances_sum (mask : AccountRecord -> bool) (df : Frame) :
  Forall (fun r => balance r == 0) df -> balance_sum (loc mask df) == 0.
Proof.
  intros H. induction H as [| r df Hr _ IH].
  - reflexivity.
  - cbn beta in Hr. rewrite masked_sum_cons, IH.
    destruct (mask r); [rewrite Hr |]; ring.
Qed.

(** X16.  When the keywords "debit" and "credit" are found in the same header
    (one signed amount column, say), every record gets that column as its
    debit and as its credit, so every balance is zero; the engine then
    reports 0 for the seven monetary figures and [None] for the seven
    quotients, whatever the amounts in the table. *)
Theorem one_amount_column (unicode_decimal : string -> option decimal)
    (float_repr : Q -> string)
    (parse_numeric : string -> option Q) (df : RawFrame) (out : Frame) :
  debit_col (columns df) = credit_col (columns df) ->
  normalise_tb_columns unicode_decimal float_repr parse_numeric df = Ok out ->
  Forall (fun r => debit r = credit r /\ balance r == 0) out /\
  (forall key,
     In key ["Net sales (£)"; "Gross profit (£)"; "Operating profit (£)";
             "Profit before tax (£)"; "Current assets (£)";
             "Current liabilities (£)"; "Working capital (£)"] ->
     exists x, ratio key out = Some (Num x) /\ x == 0) /\
  (forall key,
     In key ["Gross margin (%)"; "Operating margin (%)";
             "Net margin (PBT, %)"; "Current ratio"; "Quick ratio";
             "Receivables days"; "Payables days"] ->
     ratio key out = Some PyNone).
Proof.
  intros Hsame Hout.
  assert (Hrows : Forall (fun r => debit r = credit r /\ balance r == 0) out).
  { destruct (resolved_or_not (columns df))
      as [Hun | [cc [nc [dc [crc [Hc [Hn [Hd Hcr]]]]]]]].
    - rewrite (normalise_unresolved unicode_decimal float_repr parse_numeric df Hun) in Hout.
      discriminate.
    - rewrite (normalise_resolved unicode_decimal float_repr parse_numeric df cc nc dc crc
                 Hc Hn Hd Hcr) in Hout.
      rewrite Hd, Hcr in Hsame. injection Hsame as ->.
      apply mapM_Forall2 in Hout. revert Hout. apply Forall2_Forall_r.
      intros row r Hr. apply normalise_row_Ok in Hr.
      destruct Hr as [z [_ ->]]. cbn [with_balance debit credit balance].
      split; [reflexivity | ring]. }
  split; [exact Hrows |].
  assert (Hs : forall p : Z -> bool,
             balance_sum (loc (fun r => p (code r)) out)
             == 0 * balance_sum (loc (fun r => p (code r)) [])).
  { intros p. rewrite zero_balances_sum; [ring |].
    revert Hrows. apply Forall_impl. intros r [_ H]. exact H. }
  pose proof (net_sales_scaled 0 [] out Hs) as Hns.
  pose proof (cogs_scaled 0 [] out Hs) as Hcogs.
  pose proof (gross_profit_scaled 0 [] out Hs) as Hgp.
  pose proof (operating_profit_scaled 0 [] out Hs) as Hop.
  pose proof (profit_before_tax_scaled 0 [] out Hs) as Hpbt.
  pose proof (current_assets_scaled 0 [] out Hs) as Hca.
  pose proof (current_liabilities_scaled 0 [] out Hs) as Hcl.
  pose proof (working_capital_scaled 0 [] out Hs) as Hwc.
  rewrite Qmult_0_l in Hns, Hcogs, Hgp, Hop, Hpbt, Hca, Hcl, Hwc.
  split; intros key Hkey; cbn [In] in Hkey;
    repeat (destruct Hkey as [<- | Hkey]); try contradiction;
    ratio_entry;
    rewrite ?(guard_zero (net_sales out)), ?(guard_zero (cogs out)),
      ?(guard_zero (current_liabilities out)) by assumption;
    try reflexivity;
    eexists; (split; [reflexivity | assumption]).
Qed.

Lemma one_amount_column_witness :
  exists out,
    normalise_tb_columns example_unicode_decimal example_float_repr example_parse_numeric
      signed_amount_table = Ok out /\
    Forall (fun r => debit r = credit r /\ balance r == 0) out /\
    ratio "Gross margin (%)" out = Some PyNone.
Proof.
  eexists. split; [vm_compute; reflexivity |].
  destruct (one_amount_column example_unicode_decimal example_float_repr example_parse_numeric
              signed_amount_table _ eq_refl eq_refl) as [Hrows [_ Hnone]].
  split; [exact Hrows |].
  apply Hnone. left. reflexivity.
Defined.

(** ** Properties of the page *)

(** The tiles on a result of the engine: all ten, unless one of the
    three denominators is zero, in which case a [None] is formatted. *)
Lemma kpi_tiles_of_engine (format_float : string -> Q -> string)
    (df : Frame) (ratios : Ratios) (breakdown : Breakdown) :
  calculate_ratios df = Ok (ratios, breakdown) ->
  (truthy (net_sales df) && truthy (current_liabilities df)
   && truthy (cogs df) = true ->
   exists tiles,
     kpi_tiles format_float ratios breakdown = Returns tiles /\
     map label tiles = tile_labels) /\
  (truthy (net_sales df) && truthy (current_liabilities df)
   && truthy (cogs df) = false ->
   kpi_tiles format_float ratios breakdown = Raises TypeError).
Proof.
  rewrite calculate_ratios_returns. intros H. injection H as <- <-.
  unfold kpi_tiles, field, getitem, first_amount, guard.
  cbn [get String.eqb Ascii.eqb Bool.eqb run_bind format].
  destruct (truthy (net_sales df)), (truthy (current_liabilities df)),
    (truthy (cogs df));
    cbn [andb of_option run_bind format];
    (split; [intros H | intros H]); try discriminate; try reflexivity.
  eexists. split; reflexivity.
Qed.

Lemma denominators_truthy (df : Frame) :
  truthy (net_sales df) && truthy (current_liabilities df)
  && truthy (cogs df) = false <->
  net_sales df == 0 \/ current_liabilities df == 0 \/ cogs df == 0.
Proof.
  rewrite !andb_false_iff, !truthy_false_iff. tauto.
Qed.


(** X17.  The only exception that escapes [main] is the [TypeError] of
    formatting a [None], and it escapes exactly when a trial balance was
    obtained (the demo, or an upload that was read and normalised) whose
    net sales, current liabilities or cost of sales are zero.  Errors of
    reading and normalising are caught; the engine raises nothing; no key
    and no breakdown row is ever missing.  When [main] returns with a
    trial balance, the page carries the ten tiles. *)
Theorem main_raises_only_on_undefined_ratio
    (unicode_decimal : string -> option decimal)
    (float_repr : Q -> string) (parse_numeric : string -> option Q)
    (read_csv read_excel : UploadedFile -> result RawFrame)
    (format_float : string -> Q -> string)
    (use_demo : bool) (uploaded_file : option UploadedFile) :
  let run_main :=
    main unicode_decimal float_repr parse_numeric read_csv read_excel format_float
         use_demo uploaded_file in
  let df_tb :=
    fst (trial_balance unicode_decimal float_repr parse_numeric read_csv read_excel
           use_demo uploaded_file) in
  (forall e, run_main = Raises e -> e = TypeError) /\
  (run_main = Raises TypeError <->
   exists df,
     df_tb = Some df /\
     (net_sales df == 0 \/ current_liabilities df == 0 \/ cogs df == 0)) /\
  (forall df p,
     df_tb = Some df -> run_main = Returns p ->
     exists side tiles chart,
       p = Dashboard side df tiles chart /\
       map label tiles = tile_labels) /\
  (df_tb = None -> exists side, run_main = Returns (UploadInvitation side)).
Proof.
  cbv zeta. unfold main.
  destruct (trial_balance unicode_decimal float_repr parse_numeric read_csv read_excel
              use_demo uploaded_file) as [[df |] side]; cbn [fst].
  - destruct (calculate_ratios df) as [[ratios breakdown] | e] eqn:E.
    2:{ rewrite calculate_ratios_returns in E. discriminate. }
    destruct (kpi_tiles_of_engine format_float df ratios breakdown E)
      as [Hall Hsome].
    destruct (truthy (net_sales df) && truthy (current_liabilities df)
              && truthy (cogs df)) eqn:T.
    + destruct (Hall eq_refl) as [tiles [-> Hlabels]]. cbn [run_bind].
      repeat split.
      * intros e H. discriminate.
      * intros H. discriminate.
      * intros [df' [Hdf Hzero]]. injection Hdf as <-.
        apply denominators_truthy in Hzero. congruence.
      * intros df' p Hdf Hp. injection Hdf as <-. injection Hp as <-.
        exists side, tiles, breakdown. split; [reflexivity | exact Hlabels].
      * intros H. discriminate.
    + rewrite (Hsome eq_refl). cbn [run_bind].
      repeat split.
      * intros e H. injection H as <-. reflexivity.
      * intros _. exists df. split; [reflexivity |].
        apply denominators_truthy. exact T.
      * intros df' p _ H. discriminate.
      * intros H. discriminate.
  - repeat split.
    + intros e H. discriminate.
    + intros H. discriminate.
    + intros [df [H _]]. discriminate.
    + intros df p H. discriminate.
    + intros _. exists side. reflexivity.
Qed.

(** X18.  An upload with the four headings and no data row passes the
    normaliser and the engine, and then [main] raises [TypeError] on the
    first undefined ratio it formats: the page is not drawn. *)
Theorem header_only_upload_raises
    (unicode_decimal : string -> option decimal)
    (float_repr : Q -> string) (parse_numeric : string -> option Q)
    (read_csv read_excel : UploadedFile -> result RawFrame)
    (format_float : string -> Q -> string)
    (f : UploadedFile) (raw : RawFrame) (cc nc dc crc : string) :
  (if endswith (lower (file_name f)) ".csv" then read_csv f
   else read_excel f) = Ok raw ->
  code_col (columns raw) = Some cc ->
  name_col (columns raw) = Some nc ->
  debit_col (columns raw) = Some dc ->
  credit_col (columns raw) = Some crc ->
  rows raw = [] ->
  main unicode_decimal float_repr parse_numeric read_csv read_excel format_float
       false (Some f) = Raises TypeError.
Proof.
  intros Hread Hc Hn Hd Hcr Hrows.
  unfold main, trial_balance, read_and_normalise.
  rewrite Hread. cbn [bind].
  rewrite (normalise_resolved unicode_decimal float_repr parse_numeric raw cc nc dc crc
             Hc Hn Hd Hcr), Hrows.
  reflexivity.
Qed.

Lemma header_only_upload_raises_witness :
  main example_unicode_decimal example_float_repr example_parse_numeric
       (example_read header_only_table) (example_read header_only_table)
       example_format_float false (Some example_file) = Raises TypeError.
Proof.
  apply (header_only_upload_raises example_unicode_decimal example_float_repr example_parse_numeric
           (example_read header_only_table) (example_read header_only_table)
           example_format_float example_file header_only_table
           "N/C" "Account Name" "Debit" "Credit");
    reflexivity.
Defined.

(** ** Letter case of the headers *)

Lemma find_col_ignores_case (kw : string) (cols cols' : list string) :
  map lower cols = map lower cols' ->
  same_position cols cols' (find_col cols kw) (find_col cols' kw).
Proof.
  revert cols'. induction cols as [| h cols IH]; intros [| h' cols'] Hmap;
    try discriminate.
  - exact I.
  - cbn [map] in Hmap. injection Hmap as Hh Hmap.
    cbn [find_col]. rewrite <- Hh.
    destruct (str_in kw (lower h)).
    + exists [], cols, [], cols'. repeat split.
    + specialize (IH cols' Hmap). unfold same_position in *.
      destruct (find_col cols kw) as [c |], (find_col cols' kw) as [c' |];
        try exact IH.
      destruct IH as [pre [post [pre' [post' [-> [-> Hlen]]]]]].
      exists (h :: pre), post, (h' :: pre'), post'.
      repeat split. cbn [length]. rewrite Hlen. reflexivity.
Qed.

(** X15.  Changing the case of letters in the headers changes nothing in the
    choice of columns: each keyword, and the code field with its three
    keywords, is resolved to the column at the same position. *)
Theorem column_choice_ignores_case (cols cols' : list string) (kw : string) :
  map lower cols = map lower cols' ->
  same_position cols cols' (find_col cols kw) (find_col cols' kw) /\
  same_position cols cols' (code_col cols) (code_col cols').
Proof.
  intros Hmap. split; [exact (find_col_ignores_case kw cols cols' Hmap) |].
  rewrite !code_col_priority.
  pose proof (find_col_ignores_case "code" cols cols' Hmap) as H1.
  pose proof (find_col_ignores_case "n/c" cols cols' Hmap) as H2.
  pose proof (find_col_ignores_case "nominal" cols cols' Hmap) as H3.
  destruct (find_col cols "code"), (find_col cols' "code");
    try exact H1; try contradiction.
  destruct (find_col cols "n/c"), (find_col cols' "n/c");
    try exact H2; try contradiction.
  exact H3.
Qed.

Lemma column_choice_ignores_case_witness :
  same_position ["Name"; "N/C"; "Debit"; "Credit"]
                ["NAME"; "n/c"; "DEBIT"; "credit"]
                (code_col ["Name"; "N/C"; "Debit"; "Credit"])
                (code_col ["NAME"; "n/c"; "DEBIT"; "credit"]).
Proof.
  exact (proj2 (column_choice_ignores_case
                  ["Name"; "N/C"; "Debit"; "Credit"]
                  ["NAME"; "n/c"; "DEBIT"; "credit"] "code" eq_refl)).
Defined.

(** ** Sign of the credit-side figures *)




